(** * qib-irida-uploader: the [prepare] command and project resolution

    A shallow embedding of [src/irida.py]: the filename handling
    ([re.split], [str.replace], [int]), the sample ordering, the writing
    of [SampleList.csv] and [create_project], followed by the properties
    of these that the specification states.

    Strings are sequences of 8-bit characters: a character of the model is
    one code point below 256 of the Python string. *)

From Stdlib Require Import String Ascii List ZArith Lia Bool Arith.
From Stdlib Require Import Permutation Sorted.
Import ListNotations.
Open Scope string_scope.
Open Scope list_scope.

(** The line feed, which a string literal cannot hold. *)
Definition nl : string := String "010"%char EmptyString.

(* ================================================================== *)
(** ** Python's string operations used by the source *)

Module Py.

(** [sub in s] *)
Fixpoint str_in (sub s : string) : bool :=
  prefix sub s
  || match s with
     | EmptyString => false
     | String _ r => str_in sub r
     end.

(** [s.replace(old, new)] for a non-empty [old], as at both call sites:
    the occurrences of [old] are replaced from left to right, without
    overlap.  [skip] counts the characters of a replaced occurrence that
    are still to be passed over. *)
Fixpoint replace_from (old new : string) (skip : nat) (s : string) : string :=
  match s with
  | EmptyString => EmptyString
  | String c r =>
      match skip with
      | S k => replace_from old new k r
      | O =>
          if prefix old s
          then (new ++ replace_from old new (String.length old - 1) r)%string
          else String c (replace_from old new 0 r)
      end
  end.

Definition str_replace (old new s : string) : string := replace_from old new 0 s.

(** [s.split(sep)] for a one-character separator. *)
Fixpoint str_split (sep : ascii) (s : string) : list string :=
  match s with
  | EmptyString => [EmptyString]
  | String c r =>
      if Ascii.eqb c sep then EmptyString :: str_split sep r
      else match str_split sep r with
           | h :: t => String c h :: t
           | [] => [String c EmptyString]
           end
  end.

(** [l[-1]] on the result of a split, which is never empty. *)
Definition last_item (l : list string) : string := last l EmptyString.

(** The characters [int] passes over on either side of the literal,
    below 256: tab to carriage return (9-13), the space (32), next line
    (133) and the no-break space (160).  The separators 28-31, which
    [str.isspace] accepts as well, are not among them: [int] rejects a
    literal next to one of these. *)
Definition is_space (c : ascii) : bool :=
  let n := nat_of_ascii c in
  (Nat.leb 9 n && Nat.leb n 13) || Nat.eqb n 32
  || Nat.eqb n 133 || Nat.eqb n 160.

Definition is_digit (c : ascii) : bool :=
  Nat.leb 48 (nat_of_ascii c) && Nat.leb (nat_of_ascii c) 57.

Definition digit_value (c : ascii) : Z := Z.of_nat (nat_of_ascii c - 48).

Fixpoint lstrip (s : string) : string :=
  match s with
  | EmptyString => EmptyString
  | String c r => if is_space c then lstrip r else s
  end.

Fixpoint rstrip (s : string) : string :=
  match s with
  | EmptyString => EmptyString
  | String c r =>
      match rstrip r with
      | EmptyString => if is_space c then EmptyString else String c EmptyString
      | r' => String c r'
      end
  end.

(** The digits of a decimal literal, with single underscores allowed
    between digits; [after_digit] says whether the previous character was
    a digit. *)
Fixpoint int_digits (acc : Z) (after_digit : bool) (s : string) : option Z :=
  match s with
  | EmptyString => if after_digit then Some acc else None
  | String c r =>
      if is_digit c then int_digits (10 * acc + digit_value c) true r
      else if Ascii.eqb c "_" then
             (if after_digit then int_digits acc false r else None)
      else None
  end.

(** [int(s)]: surrounding white space is dropped, one sign is allowed,
    then decimal digits.  [None] stands for the [ValueError].  The limit
    newer interpreters put on the number of digits (4300) is beyond the
    length of a file name and is left out. *)
Definition int (s : string) : option Z :=
  match rstrip (lstrip s) with
  | String "+" r => int_digits 0 false r
  | String "-" r => option_map Z.opp (int_digits 0 false r)
  | t => int_digits 0 false t
  end.

End Py.

(* ================================================================== *)
(** ** The regular expressions of the source

    The patterns of the source use literals, [.], a character range, a
    two-character set, a bounded repetition and one lookahead; the matcher
    below is a backtracking matcher for exactly these. *)

Module Re.

Inductive atom : Type :=
| Lit (c : ascii)             (* the character itself *)
| Dot                         (* [.]: anything but a line feed *)
| Range (lo hi : ascii)       (* [[lo-hi]] *)
| OneOf (cs : string).        (* [[...]] *)

Definition atom_matches (a : atom) (c : ascii) : bool :=
  match a with
  | Lit d => Ascii.eqb c d
  | Dot => negb (Ascii.eqb c "010")
  | Range lo hi =>
      Nat.leb (nat_of_ascii lo) (nat_of_ascii c)
      && Nat.leb (nat_of_ascii c) (nat_of_ascii hi)
  | OneOf cs => Py.str_in (String c EmptyString) cs
  end.

Inductive item : Type :=
| Rep (a : atom) (lo hi : nat)   (* [a{lo,hi}], greedy *)
| Ahead (s : string).            (* [(?=s)] for a literal [s] *)

(** One alternative is a sequence of items, a pattern a list of
    alternatives tried in order. *)
Definition pattern : Type := list (list item).

(** [a{lo,hi}] followed by the continuation [k]: as many repetitions as
    possible first.  The result is the number of characters matched. *)
Fixpoint rep (a : atom) (lo hi : nat) (k : string -> option nat) (s : string)
  : option nat :=
  let stop := if Nat.eqb lo 0 then k s else None in
  match hi with
  | O => stop
  | S hi' =>
      match s with
      | String c s' =>
          if atom_matches a c then
            match rep a (pred lo) hi' k s' with
            | Some n => Some (S n)
            | None => stop
            end
          else stop
      | EmptyString => stop
      end
  end.

Fixpoint match_seq (p : list item) : string -> option nat :=
  match p with
  | [] => fun _ => Some 0
  | Rep a lo hi :: p' => rep a lo hi (match_seq p')
  | Ahead l :: p' => fun s => if prefix l s then match_seq p' s else None
  end.

(** A match of the pattern starting at the first character of [s]. *)
Fixpoint match_here (r : pattern) (s : string) : option nat :=
  match r with
  | [] => None
  | p :: r' =>
      match match_seq p s with
      | Some n => Some n
      | None => match_here r' s
      end
  end.

(** [re.search]: start and length of the leftmost match. *)
Fixpoint search (r : pattern) (s : string) : option (nat * nat) :=
  match match_here r s with
  | Some n => Some (0, n)
  | None =>
      match s with
      | EmptyString => None
      | String _ t =>
          match search r t with
          | Some (i, n) => Some (S i, n)
          | None => None
          end
      end
  end.

(** [regex.split(s)] for a pattern without groups.  None of the source's
    patterns matches the empty string, and an empty match is not taken as
    a separator here. *)
Fixpoint split_from (r : pattern) (skip : nat) (s : string) : list string :=
  match s with
  | EmptyString => [EmptyString]
  | String c t =>
      match skip with
      | S k => split_from r k t
      | O =>
          match match_here r s with
          | Some (S n) => EmptyString :: split_from r n t
          | _ =>
              match split_from r 0 t with
              | h :: tl => String c h :: tl
              | [] => [String c EmptyString]
              end
          end
      end
  end.

Definition split (r : pattern) (s : string) : list string := split_from r 0 s.

Fixpoint lit (s : string) : list item :=
  match s with
  | EmptyString => []
  | String c r => Rep (Lit c) 1 1 :: lit r
  end.

Definition one (a : atom) : list item := [Rep a 1 1].

End Re.

(** [regex.split(s)[0]] *)
Definition split_head (r : Re.pattern) (s : string) : string :=
  hd EmptyString (Re.split r s).

(** [re.compile("_S[0-9]{1,3}|_R[12].|_1.non_host.fastq.gz|_2.non_host.fastq.gz")];
    the dots are not escaped in the source and match any character. *)
Definition regex_pe : Re.pattern :=
  [ Re.lit "_S" ++ [Re.Rep (Re.Range "0" "9") 1 3];
    Re.lit "_R" ++ Re.one (Re.OneOf "12") ++ Re.one Re.Dot;
    Re.lit "_1" ++ Re.one Re.Dot ++ Re.lit "non_host" ++ Re.one Re.Dot
      ++ Re.lit "fastq" ++ Re.one Re.Dot ++ Re.lit "gz";
    Re.lit "_2" ++ Re.one Re.Dot ++ Re.lit "non_host" ++ Re.one Re.Dot
      ++ Re.lit "fastq" ++ Re.one Re.Dot ++ Re.lit "gz" ].

(** [re.compile(".fastq|.fq.")] *)
Definition regex_se : Re.pattern :=
  [ Re.one Re.Dot ++ Re.lit "fastq";
    Re.one Re.Dot ++ Re.lit "fq" ++ Re.one Re.Dot ].

(** ["[0-9]{6}(?=\_NB)"] *)
Definition regex_run_date : Re.pattern :=
  [ [Re.Rep (Re.Range "0" "9") 6 6; Re.Ahead "_NB"] ].

(* ================================================================== *)
(** ** Paths and dates *)

(** [pathlib.Path(path).parts] on a POSIX system: the root if there is
    one, then the components that are neither empty nor [.]. *)
Definition path_root (path : string) : list string :=
  if prefix "///" path then ["/"]
  else if prefix "//" path then ["//"]
  else if prefix "/" path then ["/"]
  else [].

Definition path_parts (path : string) : list string :=
  path_root path
  ++ filter (fun c => negb (String.eqb c "") && negb (String.eqb c "."))
       (Py.str_split "/" path).

Record date : Type := Date { year : nat; month : nat; day : nat }.

Definition digit_char (n : nat) : ascii := ascii_of_nat (48 + n mod 10).

Definition pad2 (n : nat) : string :=
  String (digit_char (n / 10)) (String (digit_char n) EmptyString).

Definition pad4 (n : nat) : string :=
  String (digit_char (n / 1000)) (String (digit_char (n / 100)) (pad2 n)).

(** [str(d)], the ISO format of a date. *)
Definition isoformat (d : date) : string :=
  (pad4 (year d) ++ "-" ++ pad2 (month d) ++ "-" ++ pad2 (day d))%string.

(** [d.strftime("%y%m%d")] *)
Definition strftime_ymd (d : date) : string :=
  (pad2 (year d) ++ pad2 (month d) ++ pad2 (day d))%string.

(* ================================================================== *)
(** ** Exceptions, events and the state of a run *)

Inductive exn : Type :=
| ValueError (msg : string)       (* [raise ValueError(msg)] *)
| IntValueError (literal : string) (* the [ValueError] of [int(literal)] *)
| IndexError                      (* [()[-1]] *)
| OSError (msg : string)          (* the manifest cannot be opened *)
| ApiError (msg : string).        (* raised by the IRIDA client library *)

Inductive result (A : Type) : Type :=
| Ok (a : A)
| Raise (e : exn).
Arguments Ok {A} a.
Arguments Raise {A} e.

(** A project as the remote listing gives it ([prj.id], [prj.name]). *)
Record project_ref : Type := ProjectRef { prj_id : string; prj_name : string }.

(** A [Project] of [iridauploader.model].  Its constructor is
    [Project(name, sample_list=None, description=None, id=None)]; the
    sample list is held as the value the caller passed. *)
Record Project : Type := {
  p_name : string;
  p_sample_list : option string;
  p_description : option string;
  p_id : option string
}.

(** [Project(name, second)], the call of line 113 with two positional
    arguments: the second one is the constructor's [sample_list], and the
    description and the id keep their default [None]. *)
Definition MkProject (name second : string) : Project :=
  {| p_name := name; p_sample_list := Some second;
     p_description := None; p_id := None |}.

(** The answer to [send_project]: [created_project['resource']['identifier']]. *)
Record resource : Type := Resource { identifier : string }.
Record response : Type := Response { resp_resource : resource }.

Inductive level : Type := Info | Warning.

Inductive log_payload : Type :=
| Text (msg : string)
| Ids (ids : list string).

(** What a run does to the outside, in the order it does it. *)
Inductive event : Type :=
| EvInitApi (config_file : string)
| EvGetProjects
| EvSendProject (p : Project)
| EvLog (lvl : level) (msg : log_payload)
| EvOpen                      (* [SampleList.csv] opened with mode "w" *)
| EvWrite (text : string).


Definition is_file_event (e : event) : bool :=
  match e with
  | EvOpen | EvWrite _ => true
  | _ => false
  end.

Definition is_get_projects (e : event) : bool :=
  match e with EvGetProjects => true | _ => false end.

Definition is_send_project (e : event) : bool :=
  match e with EvSendProject _ => true | _ => false end.

Definition count (f : event -> bool) (l : list event) : nat :=
  List.length (filter f l).

(** The remote platform, as the client library presents it.
    [initialize_irida_api] stands for the whole set-up of the client from
    the configuration (settings, temporary configuration file), which may
    fail; the two other operations are the calls of [create_project]. *)
Class IridaApi (remote : Type) : Type := {
  initialize_irida_api : string -> remote -> result unit;
  get_projects : remote -> result (list project_ref);
  send_project : remote -> Project -> result response * remote
}.

(** The machine the command runs on. [rglob path pattern] gives the names
    ([fq.name]) of the files [Path(path).rglob(pattern)] yields, in the
    order it yields them. *)
Record Host : Type := {
  today : date;
  rglob : string -> string -> result (list string);
  writable : bool     (* can [SampleList.csv] be opened for writing? *)
}.

Record world (remote : Type) : Type := World {
  remote_st : remote;
  sample_list : option string;   (* content of [SampleList.csv], if it exists *)
  trace : list event
}.
Arguments World {remote}.
Arguments remote_st {remote}.
Arguments sample_list {remote}.
Arguments trace {remote}.

(** Computations: state passing, with the state kept when an exception
    is raised. *)
Definition M (remote A : Type) : Type := world remote -> result A * world remote.

Definition ret {remote A} (a : A) : M remote A := fun w => (Ok a, w).

Definition raise {remote A} (e : exn) : M remote A := fun w => (Raise e, w).

Definition bind {remote A B} (m : M remote A) (k : A -> M remote B) : M remote B :=
  fun w =>
    match m w with
    | (Ok a, w') => k a w'
    | (Raise e, w') => (Raise e, w')
    end.

Definition lift {remote A} (r : result A) : M remote A := fun w => (r, w).

Declare Scope py_scope.
Delimit Scope py_scope with py.
Notation "x <- m ;; k" := (bind m (fun x => k))
  (at level 61, m at next level, right associativity) : py_scope.
Notation "m ;; k" := (bind m (fun _ => k))
  (at level 61, right associativity) : py_scope.
Open Scope py_scope.

Definition emit {remote} (e : event) : M remote unit :=
  fun w => (Ok tt, World (remote_st w) (sample_list w) (trace w ++ [e])).

Definition logging {remote} (lvl : level) (msg : log_payload) : M remote unit :=
  emit (EvLog lvl msg).

(* ================================================================== *)
(** ** [create_project] *)

Section Program.

Context {remote : Type} {api : IridaApi remote} (host : Host).

Definition api_initialize (config_file : string) : M remote unit :=
  emit (EvInitApi config_file) ;;
  fun w => (initialize_irida_api config_file (remote_st w), w).

Definition api_get_projects : M remote (list project_ref) :=
  emit EvGetProjects ;;
  fun w => (get_projects (remote_st w), w).

Definition api_send_project (p : Project) : M remote response :=
  emit (EvSendProject p) ;;
  fun w =>
    let (r, rs) := send_project (remote_st w) p in
    (r, World rs (sample_list w) (trace w)).

Definition default_description : string :=
  ("Created on " ++ isoformat (today host) ++ " by BOT")%string.

(** [[prj.id for prj in projects_list if prj.name == name]] *)
Definition existed (projects_list : list project_ref) (name : string) : list string :=
  map prj_id (filter (fun prj => String.eqb (prj_name prj) name) projects_list).

Definition create_project (name config_file : string)
  (project_description : option string) : M remote string :=
  let project_description :=
    match project_description with
    | None => default_description
    | Some d => d
    end in
  api_initialize config_file ;;
  projects_list <- api_get_projects ;;
  let existed_project := existed projects_list name in
  match existed_project with
  | [] =>
      let new_project := MkProject name project_description in
      created_project <- api_send_project new_project ;;
      let project_id := identifier (resp_resource created_project) in
      logging Info (Text ("Created project " ++ name ++ " - " ++ project_id)) ;;
      ret project_id
  | first :: _ =>
      logging Warning (Text ("Project(s) " ++ name ++ " is existed")) ;;
      logging Info (Ids existed_project) ;;
      ret first
  end.

(* ================================================================== *)
(** ** [prepare] *)

(** Lines 154-161: the project name made from the folder name and the
    run date (six digits before [_NB] in the path, else today). *)
Definition run_date (path : string) : string :=
  match Re.search regex_run_date path with
  | Some (i, n) => substring i n path
  | None => strftime_ymd (today host)
  end.

Definition derive_project_name (path : string) : result string :=
  match rev (path_parts path) with
  | [] => Raise IndexError
  | folder :: _ =>
      Ok ("QIB-" ++ Py.str_replace "_" "-" folder ++ "-" ++ run_date path)%string
  end.

(** Lines 152-166: the project identifier of the run. *)
Definition resolve_pid (path : string) (pid name : option string)
  (config : string) : M remote string :=
  match pid with
  | None =>
      project_name <-
        match name with
        | None =>
            project_name <- lift (derive_project_name path) ;;
            logging Info (Text ("Project name is: " ++ project_name)) ;;
            ret project_name
        | Some n => ret n
        end ;;
      create_project project_name config None
  | Some p => ret p
  end.

(** The key of the sort: [int(regex.split(s)[0].split("_")[-1])]. *)
Definition key_token (regex : Re.pattern) (s : string) : string :=
  Py.last_item (Py.str_split "_" (split_head regex s)).

Definition sort_key (regex : Re.pattern) (s : string) : option Z :=
  Py.int (key_token regex s).

(** [sorted(names, key=...)]: the keys are computed for every name in
    order, then the names are sorted by key, equal keys keeping their
    order. *)
Fixpoint keyed (regex : Re.pattern) (names : list string)
  : result (list (Z * string)) :=
  match names with
  | [] => Ok []
  | s :: rest =>
      match sort_key regex s with
      | None => Raise (IntValueError (key_token regex s))
      | Some k =>
          match keyed regex rest with
          | Ok l => Ok ((k, s) :: l)
          | Raise e => Raise e
          end
      end
  end.

Fixpoint insert (x : Z * string) (l : list (Z * string)) : list (Z * string) :=
  match l with
  | [] => [x]
  | y :: l' => if (fst x <=? fst y)%Z then x :: l else y :: insert x l'
  end.

Definition stable_sort (l : list (Z * string)) : list (Z * string) :=
  fold_right insert [] l.

Definition sorted_names (regex : Re.pattern) (names : list string)
  : result (list string) :=
  match keyed regex names with
  | Ok l => Ok (map snd (stable_sort l))
  | Raise e => Raise e
  end.

(** Lines 181-184. *)
Definition order_names (sort : bool) (regex : Re.pattern) (names : list string)
  : result (list string) :=
  if sort then sorted_names regex names else Ok names.

(** Lines 193-203: the name of the reverse reads. *)
Definition reverse_reads (pe : bool) (fastq_name : string) : result string :=
  if pe then
    if Py.str_in "_R1_" fastq_name then
      Ok (Py.str_replace "_R1_" "_R2_" fastq_name)
    else if Py.str_in "_R1.non_host.fastq.gz" fastq_name then
      Ok (Py.str_replace "_R1.non_host.fastq.gz" "_R2.non_host.fastq.gz" fastq_name)
    else Raise (ValueError ("Invalid file name: " ++ fastq_name))
  else Ok EmptyString.

Definition data_line : string := ("[Data]" ++ nl)%string.

Definition header_line : string :=
  ("Sample_Name,Project_ID,File_Forward,File_Reverse" ++ nl)%string.

(** Lines 204-206: one row of the manifest. *)
Definition row (sample_id pid forward reverse : string) : string :=
  (sample_id ++ ", " ++ pid ++ ", " ++ forward ++ ", " ++ reverse ++ nl)%string.

(** [sample_file.open(mode="w")]: the file is created or emptied. *)
Definition open_sample_list : M remote unit :=
  if writable host then
    fun w => (Ok tt, World (remote_st w) (Some EmptyString) (trace w ++ [EvOpen]))
  else raise (OSError "SampleList.csv").

(** [fh.write(text)], taken to succeed once the file is open.  What the
    command prints on standard output is left out of the model. *)
Definition write (text : string) : M remote unit :=
  fun w =>
    let content := match sample_list w with Some c => c | None => EmptyString end in
    (Ok tt, World (remote_st w) (Some (content ++ text)%string)
              (trace w ++ [EvWrite text])).

(** The loop of lines 192-206 over [sample_ids[i]] and
    [_sorted_fastq_names[i]], two lists of the same length. *)
Fixpoint write_rows (pe : bool) (pid : string) (rows : list (string * string))
  : M remote unit :=
  match rows with
  | [] => ret tt
  | (sample_id, fastq_name) :: rest =>
      reverse <- lift (reverse_reads pe fastq_name) ;;
      write (row sample_id pid fastq_name reverse) ;;
      write_rows pe pid rest
  end.

(** Lines 167-207, with the project identifier known. *)
Definition build_manifest (path pattern : string) (pe sort : bool) (pid : string)
  : M remote unit :=
  let regex := if pe then regex_pe else regex_se in
  let pattern := if pe then pattern else "*.fastq.gz" in
  fastq_names <- lift (rglob host path pattern) ;;
  sorted_fastq_names <- lift (order_names sort regex fastq_names) ;;
  let sample_ids := map (split_head regex) sorted_fastq_names in
  open_sample_list ;;
  write data_line ;;
  write header_line ;;
  write_rows pe pid (combine sample_ids sorted_fastq_names).

Definition prepare (path pattern : string) (pid name : option string)
  (pe sort : bool) (config : string) : M remote unit :=
  pid <- resolve_pid path pid name config ;;
  build_manifest path pattern pe sort pid.

End Program.

(* ================================================================== *)
(** ** Sample records and the manifest text *)

Record SampleRecord : Type := {
  sample_id : string;
  project_id : string;
  forward_file : string;
  reverse_file : string
}.

Definition record_row (r : SampleRecord) : string :=
  row (sample_id r) (project_id r) (forward_file r) (reverse_file r).

Definition join (l : list string) : string := fold_right append EmptyString l.

(** The two header lines followed by the rows of the records. *)
Definition manifest_text (recs : list SampleRecord) : string :=
  (data_line ++ header_line ++ join (map record_row recs))%string.

(** The record the loop writes for a file name of a single-end run. *)
Definition se_record (pid fastq_name : string) : SampleRecord :=
  {| sample_id := split_head regex_se fastq_name;
     project_id := pid;
     forward_file := fastq_name;
     reverse_file := EmptyString |}.

(** The record the loop writes for a forward file name of a paired-end
    run, given the name of its reverse reads. *)
Definition pe_record (pid fastq_name reverse : string) : SampleRecord :=
  {| sample_id := split_head regex_pe fastq_name;
     project_id := pid;
     forward_file := fastq_name;
     reverse_file := reverse |}.

(** Does a forward file name fall under one of the two pairing rules? *)
Definition pairable (fastq_name : string) : bool :=
  Py.str_in "_R1_" fastq_name || Py.str_in "_R1.non_host.fastq.gz" fastq_name.

(** The reverse name the rules give for a pairable forward name. *)
Definition paired_name (fastq_name : string) : string :=
  if Py.str_in "_R1_" fastq_name
  then Py.str_replace "_R1_" "_R2_" fastq_name
  else Py.str_replace "_R1.non_host.fastq.gz" "_R2.non_host.fastq.gz" fastq_name.

(** *** A reader for the manifest

    The repository only writes the manifest; the reader below is the
    inverse used to state that the rows can be recovered: the text is cut
    at line feeds, the two header lines are checked, and every other line
    is cut at each comma followed by a space into exactly four fields. *)

(** [line.split(", ")] *)
Fixpoint split_comma_space (s : string) : list string :=
  match s with
  | EmptyString => [EmptyString]
  | String c r =>
      match r with
      | String d r' =>
          if Ascii.eqb c "," && Ascii.eqb d " "
          then EmptyString :: split_comma_space r'
          else match split_comma_space r with
               | h :: t => String c h :: t
               | [] => [String c EmptyString]
               end
      | EmptyString => [String c EmptyString]
      end
  end.

Definition parse_row (line : string) : option SampleRecord :=
  match split_comma_space line with
  | [a; b; c; d] =>
      Some {| sample_id := a; project_id := b; forward_file := c; reverse_file := d |}
  | _ => None
  end.

Fixpoint parse_rows (lines : list string) : option (list SampleRecord) :=
  match lines with
  | [] => Some []
  | l :: rest =>
      match rest with
      | [] => if String.eqb l "" then Some [] else None  (* after the last line feed *)
      | _ :: _ =>
          match parse_row l, parse_rows rest with
          | Some r, Some rs => Some (r :: rs)
          | _, _ => None
          end
      end
  end.

Definition parse_manifest (text : string) : option (list SampleRecord) :=
  match Py.str_split "010" text with
  | l1 :: l2 :: rest =>
      if String.eqb l1 "[Data]"
         && String.eqb l2 "Sample_Name,Project_ID,File_Forward,File_Reverse"
      then parse_rows rest
      else None
  | _ => None
  end.

(** A field that can be read back: it holds no comma followed by a space
    and no line feed. *)
Definition clean_field (s : string) : bool :=
  negb (Py.str_in ", " s) && negb (Py.str_in nl s).

Definition clean_record (r : SampleRecord) : bool :=
  clean_field (sample_id r) && clean_field (project_id r)
  && clean_field (forward_file r) && clean_field (reverse_file r).

(* ================================================================== *)
(** ** An in-memory remote platform, for the examples

    The listing is the state; a created project is appended to it and
    gets an identifier made from its position. *)

Module Demo.

Definition remote : Type := list project_ref.

Definition new_id (r : remote) : string := ("P" ++ pad2 (List.length r))%string.

#[export] Instance api : IridaApi remote := {|
  initialize_irida_api := fun _ _ => Ok tt;
  get_projects := fun r => Ok r;
  send_project := fun r p =>
    (Ok (Response (Resource (new_id r))), r ++ [ProjectRef (new_id r) (p_name p)])
|}.

(** A machine on which each listed pattern finds the given file names,
    and any other pattern finds none. *)
Fixpoint lookup (table : list (string * list string)) (pattern : string)
  : list string :=
  match table with
  | [] => []
  | (p, names) :: rest => if String.eqb p pattern then names else lookup rest pattern
  end.

Definition host (table : list (string * list string)) : Host :=
  {| today := Date 2024 5 17;
     rglob := fun _ pattern => Ok (lookup table pattern);
     writable := true |}.

Definition start (listing : remote) : world remote := World listing None [].

Definition config : string := "config.conf".

Definition run_folder : string := "/data/240102_NB501_run_7".

(** Two projects named [demo], after one whose name differs by case. *)
Definition listing : remote :=
  [ProjectRef "3" "Demo"; ProjectRef "7" "demo"; ProjectRef "9" "demo"].

(** A folder where [*.gz] finds a forward file and a file of another kind. *)
Definition mixed_host : Host :=
  host [("*.gz", ["X_S1_R1_001.fastq.gz"; "weird.file.gz"])].

(** Sample names without a number: the number is in the [_S] marker. *)
Definition s_numbered_host : Host :=
  host [("*_R1_001.fastq.gz", ["A_S10_R1_001.fastq.gz"; "A_S2_R1_001.fastq.gz"])].

(** Sample names that end in a number. *)
Definition numbered_names : list string :=
  ["A_10_S1_R1_001.fastq.gz"; "A_2_S2_R1_001.fastq.gz"].

Definition numbered_host : Host := host [("*_R1_001.fastq.gz", numbered_names)].

(** A single-end folder: the default pattern finds nothing in it. *)
Definition single_host : Host :=
  host [("*.fastq.gz", ["A.fastq.gz"; "B.fastq.gz"]); ("*_R1_001.fastq.gz", [])].

(** Two folders whose file names differ, one of them holding a comma
    followed by a space. *)
Definition comma_host : Host := host [("*.fastq.gz", ["y, y.fastq.gz"])].

Definition plain_host : Host := host [("*.fastq.gz", ["y.fastq.gz"])].

(** [prepare --pe --pid 7 --pattern "*.gz"] in the mixed folder. *)
Definition mixed_run : result unit * world remote :=
  prepare mixed_host run_folder "*.gz" (Some "7") None true false config (start []).

(** [prepare --pe --sort --pid 7] in the two paired-end folders. *)
Definition s_numbered_run : result unit * world remote :=
  prepare s_numbered_host run_folder "*_R1_001.fastq.gz" (Some "7") None true true
    config (start []).

Definition numbered_run : result unit * world remote :=
  prepare numbered_host run_folder "*_R1_001.fastq.gz" (Some "7") None true true
    config (start []).


(** The writing of the manifest in the single-end folder. *)
Definition single_build : result unit * world remote :=
  build_manifest single_host run_folder "*_R1_001.fastq.gz" false false "7" (start []).

(** The writing of the manifest in the two folders whose names differ. *)
Definition comma_run : result unit * world remote :=
  build_manifest comma_host run_folder "*.fastq.gz" false false "p" (start []).

Definition plain_run : result unit * world remote :=
  build_manifest plain_host run_folder "*.fastq.gz" false false "y, p, y" (start []).

End Demo.

(* ================================================================== *)
(** ** Vocabulary of the statements *)

(** The world after some more events. *)
Definition add_events {remote} (w : world remote) (evs : list event) : world remote :=
  World (remote_st w) (sample_list w) (trace w ++ evs).

(** The description [create_project] sends. *)
Definition description_of (host : Host) (project_description : option string)
  : string :=
  match project_description with
  | None => ("Created on " ++ isoformat (today host) ++ " by BOT")%string
  | Some d => d
  end.

(** The name of the reverse reads the loop computes for a name it accepts. *)
Definition reverse_name (pe : bool) (fastq_name : string) : string :=
  if pe then paired_name fastq_name else EmptyString.

(** The record the loop writes for a file name it accepts. *)
Definition run_record (pe : bool) (pid fastq_name : string) : SampleRecord :=
  {| sample_id := split_head (if pe then regex_pe else regex_se) fastq_name;
     project_id := pid;
     forward_file := fastq_name;
     reverse_file := reverse_name pe fastq_name |}.

(** What the loop over the rows writes, and how it ends. *)
Fixpoint rows_outcome (pe : bool) (pid : string) (rows : list (string * string))
  : list SampleRecord * result unit :=
  match rows with
  | [] => ([], Ok tt)
  | (sid, fastq_name) :: rest =>
      match reverse_reads pe fastq_name with
      | Raise e => ([], Raise e)
      | Ok reverse =>
          let (recs, res) := rows_outcome pe pid rest in
          ({| sample_id := sid; project_id := pid;
              forward_file := fastq_name; reverse_file := reverse |} :: recs, res)
      end
  end.

Definition no_file_event (evs : list event) : bool :=
  forallb (fun e => negb (is_file_event e)) evs.

Definition write_events (recs : list SampleRecord) : list event :=
  map (fun r => EvWrite (record_row r)) recs.

Definition header_events : list event :=
  [EvOpen; EvWrite data_line; EvWrite header_line].

(** A row without its line feed. *)
Definition row_line (r : SampleRecord) : string :=
  (sample_id r ++ ", " ++ project_id r ++ ", " ++ forward_file r ++ ", "
     ++ reverse_file r)%string.

Definition has_char (c : ascii) (s : string) : bool :=
  Py.str_in (String c EmptyString) s.

(** An alternative that starts with at least one character. *)
Definition consuming (p : list Re.item) : bool :=
  match p with
  | Re.Rep _ (S _) _ :: _ => true
  | _ => false
  end.

Definition key_le (a b : Z * string) : Prop := (fst a <= fst b)%Z.

(** Each name with its key in front. *)
Definition keys_agree (regex : Re.pattern) (l : list (Z * string)) : Prop :=
  Forall (fun p => sort_key regex (snd p) = Some (fst p)) l.

Fixpoint all_digits (s : string) : bool :=
  match s with
  | EmptyString => true
  | String c r => Py.is_digit c && all_digits r
  end.

(** A non-empty string of decimal digits. *)
Definition numeric (t : string) : bool :=
  match t with
  | EmptyString => false
  | String _ _ => all_digits t
  end.

(** The number a string of decimal digits denotes, after [acc]. *)
Fixpoint decimal (acc : Z) (s : string) : Z :=
  match s with
  | EmptyString => acc
  | String c r => decimal (10 * acc + Py.digit_value c) r
  end.

(** The file name [f] carries the number [d] before its first token: [f]
    is [stem ++ d ++ rest], where [stem] is empty or ends in an underscore,
    [d] is a non-empty string of digits, [rest] is empty or starts with a
    match of the pattern, and the pattern matches nowhere in [f] before
    [rest]. *)
Definition number_before_token (regex : Re.pattern) (f d : string) : Prop :=
  exists stem rest,
    f = (stem ++ d ++ rest)%string
    /\ (stem = EmptyString \/ exists s, stem = (s ++ "_")%string)
    /\ numeric d = true
    /\ (rest = EmptyString \/ exists n, Re.match_here regex rest = Some (S n))
    /\ (forall a b, f = (a ++ b)%string ->
          String.length a < String.length (stem ++ d) ->
          Re.match_here regex b = None).

Ltac conj := repeat match goal with |- _ /\ _ => split end.

Ltac in_events :=
  let q := fresh "q" in
  let H := fresh "H" in
  intros q H; cbn in H;
  repeat (destruct H as [H|H];
          [try discriminate; try (injection H as <-; reflexivity)|]);
  try contradiction.

(* ================================================================== *)
(** ** The client settings and the [upload] command

    [get_config_value], [initialize_irida_api], [_upload] and [upload].
    The configuration parser, the environment, the prompt, the client
    library and the uploader are given from outside; what the commands
    do with them is recorded as a list of events. *)

Module Cli.

Inductive failure : Type :=
| AssertionError (msg : string)   (* a failed [assert] *)
| Abort                           (* the prompt was aborted *)
| LibraryError (msg : string).    (* raised by a library that is called *)

Inductive outcome (A : Type) : Type :=
| Done (a : A)
| Failed (f : failure).
Arguments Done {A} a.
Arguments Failed {A} f.

(** [configparser.ConfigParser], as far as the source uses it. *)
Class ConfigParser (C : Type) : Type := {
  new_parser : C;                                      (* [ConfigParser()] *)
  has_section : C -> string -> bool;                   (* [section in config] *)
  has_option : C -> string -> string -> bool;          (* [key in config[section]] *)
  get_option : C -> string -> string -> outcome string; (* [config[section][key]] *)
  set_section : C -> string -> list (string * string) -> outcome C
    (* [config[section] = d], which raises [ValueError] for a value with
       a [%] that is neither doubled nor part of a reference *)
}.

Record Machine (C : Type) : Type := {
  path_exists : string -> bool;                 (* [os.path.exists] *)
  access_w : string -> bool;                    (* [os.access(path, os.W_OK)] *)
  read_config : string -> outcome C;            (* a new parser after [read(file)] *)
  environ : string -> option string;            (* [os.environ.get] *)
  prompt : string -> bool -> outcome string;    (* [click.prompt(msg, hide_input)] *)
  initialize_api : list (string * string) -> outcome unit;
                                                (* [api_handler._initialize_api] *)
  temp_name : string;                           (* name of the temporary file *)
  config_setup : string -> outcome unit;        (* [set_config_file] and [setup] *)
  upload_run_single_entry : string -> bool -> string -> bool -> outcome Z
                                                (* the exit code of the upload *)
}.
Arguments path_exists {C}.
Arguments access_w {C}.
Arguments read_config {C}.
Arguments environ {C}.
Arguments prompt {C}.
Arguments initialize_api {C}.
Arguments temp_name {C}.
Arguments config_setup {C}.
Arguments upload_run_single_entry {C}.

Inductive io (C : Type) : Type :=
| Prompt (msg : string) (hide_input : bool)
| InitializeApi (settings : list (string * string))
| CreateTemp (path : string)                 (* [tempfile.NamedTemporaryFile(...)] *)
| WriteTemp (path : string) (config : C)     (* [config.write(temp_config)] *)
| AtExitUnlink (path : string)               (* [atexit.register(os.unlink, path)] *)
| LogInfo (msg : string)
| SetConfigFile (path : string)
| UploadRun (directory : string) (force_upload : bool) (upload_mode : string)
    (continue_upload : bool).
Arguments Prompt {C}.
Arguments InitializeApi {C}.
Arguments CreateTemp {C}.
Arguments WriteTemp {C}.
Arguments AtExitUnlink {C}.
Arguments LogInfo {C}.
Arguments SetConfigFile {C}.
Arguments UploadRun {C}.

Definition is_prompt {C} (e : io C) : bool :=
  match e with Prompt _ _ => true | _ => false end.

(** The temporary file is written, or its removal is registered. *)
Definition is_temp_event {C} (e : io C) : bool :=
  match e with WriteTemp _ _ | AtExitUnlink _ => true | _ => false end.

(** Computations that add to the events and may fail. *)
Definition S (C A : Type) : Type := list (io C) -> outcome A * list (io C).

Definition ret {C A} (a : A) : S C A := fun t => (Done a, t).

Definition fail {C A} (f : failure) : S C A := fun t => (Failed f, t).

Definition bind {C A B} (m : S C A) (k : A -> S C B) : S C B :=
  fun t =>
    match m t with
    | (Done a, t') => k a t'
    | (Failed f, t') => (Failed f, t')
    end.

Definition lift {C A} (o : outcome A) : S C A := fun t => (o, t).

Definition emit {C} (e : io C) : S C unit := fun t => (Done tt, t ++ [e]).

Declare Scope cli_scope.
Delimit Scope cli_scope with cli.
Notation "x <- m ;; k" := (bind m (fun x => k))
  (at level 61, m at next level, right associativity) : cli_scope.
Notation "m ;; k" := (bind m (fun _ => k))
  (at level 61, right associativity) : cli_scope.
Local Open Scope cli_scope.

Section Commands.

Context {C : Type} {parser : ConfigParser C} (m : Machine C).

Definition ask (prompt_msg : string) (hide_input : bool) : S C string :=
  emit (Prompt prompt_msg hide_input) ;;
  lift (prompt m prompt_msg hide_input).

(** Lines 17-24: the value from the file, else from the environment when
    it is set and not empty, else from the prompt. *)
Definition get_config_value (config : C) (section key env_var prompt_msg : string)
  (hide_input : bool) : S C string :=
  if has_section config section && has_option config section key
  then lift (get_option config section key)
  else
    match environ m env_var with
    | Some value => if String.eqb value "" then ask prompt_msg hide_input else ret value
    | None => ask prompt_msg hide_input
    end.

(** Lines 31-33: the file is read when a name is given and the file exists. *)
Definition load_config (config_file : option string) : outcome C :=
  match config_file with
  | Some f =>
      if negb (String.eqb f "") && path_exists m f then read_config m f
      else Done new_parser
  | None => Done new_parser
  end.

(** Lines 26-79; the result is the path of the temporary file (the API
    object that comes with it is not looked into).  The temporary file is
    created (line 69) before the settings are stored in the parser (line
    72), which can fail; creating the file and writing to it are taken to
    succeed. *)
Definition initialize_irida_api (config_file : option string) : S C string :=
  config <- lift (load_config config_file) ;;
  base_url <- get_config_value config "Settings" "base_url" "IRIDA_BASE_URL"
                "Enter IRIDA base URL" false ;;
  client_id <- get_config_value config "Settings" "client_id" "IRIDA_CLIENT_ID"
                 "Enter IRIDA client ID" false ;;
  client_secret <- get_config_value config "Settings" "client_secret"
                     "IRIDA_CLIENT_SECRET" "Enter IRIDA client secret" true ;;
  username <- get_config_value config "Settings" "username" "IRIDA_USERNAME"
                "Enter IRIDA username" false ;;
  password <- get_config_value config "Settings" "password" "IRIDA_PASSWORD"
                "Enter IRIDA password" true ;;
  timeout <- get_config_value config "Settings" "timeout" "IRIDA_TIMEOUT"
               "Enter API timeout" false ;;
  let settings :=
    [("base_url", base_url); ("client_id", client_id);
     ("client_secret", client_secret); ("username", username);
     ("password", password); ("timeout_multiplier", timeout)] in
  emit (InitializeApi settings) ;;
  lift (initialize_api m settings) ;;
  emit (CreateTemp (temp_name m)) ;;
  written <- lift (set_section config "Settings" settings) ;;
  emit (WriteTemp (temp_name m) written) ;;
  emit (AtExitUnlink (temp_name m)) ;;
  ret (temp_name m).

(** [os.path.join(directory, name)] for a relative [name]. *)
Fixpoint ends_with_slash (s : string) : bool :=
  match s with
  | EmptyString => false
  | String c EmptyString => Ascii.eqb c "/"
  | String _ r => ends_with_slash r
  end.

Definition path_join (directory name : string) : string :=
  match directory with
  | EmptyString => name
  | _ => if ends_with_slash directory then (directory ++ name)%string
         else (directory ++ "/" ++ name)%string
  end.

(** Lines 209-222. *)
Definition _upload (run_directory : string) (force_upload : bool)
  (upload_mode : string) (continue_upload : bool) : S C Z :=
  emit (UploadRun run_directory force_upload upload_mode continue_upload) ;;
  lift (upload_run_single_entry m run_directory force_upload upload_mode
          continue_upload).

(** Lines 260-281, with assertions enabled. *)
Definition upload (directory : string) (force_upload : bool) (upload_mode : string)
  (continue_upload : bool) (config : option string) : S C unit :=
  let sample_list := path_join directory "SampleList.csv" in
  if negb (path_exists m sample_list) then
    fail (AssertionError ("ERROR! SampleList.csv not found in " ++ directory))
  else if negb (access_w m sample_list) then
    fail (AssertionError ("ERROR! Specified directory is not writable: " ++ directory))
  else
    emit (LogInfo ("Current directory: " ++ directory)) ;;
    temp_config_path <- initialize_irida_api config ;;
    emit (SetConfigFile temp_config_path) ;;
    lift (config_setup m temp_config_path) ;;
    _upload directory force_upload upload_mode continue_upload ;;
    ret tt.

(** The six settings: name, key in the file, environment variable,
    prompt and whether the input is hidden. *)
Definition setting_specs : list (string * string * string * string * bool) :=
  [("base_url", "base_url", "IRIDA_BASE_URL", "Enter IRIDA base URL", false);
   ("client_id", "client_id", "IRIDA_CLIENT_ID", "Enter IRIDA client ID", false);
   ("client_secret", "client_secret", "IRIDA_CLIENT_SECRET",
    "Enter IRIDA client secret", true);
   ("username", "username", "IRIDA_USERNAME", "Enter IRIDA username", false);
   ("password", "password", "IRIDA_PASSWORD", "Enter IRIDA password", true);
   ("timeout_multiplier", "timeout", "IRIDA_TIMEOUT", "Enter API timeout", false)].

Definition in_file (config : C) (key : string) : bool :=
  has_section config "Settings" && has_option config "Settings" key.

Definition in_environment (env_var : string) : bool :=
  match environ m env_var with
  | Some value => negb (String.eqb value "")
  | None => false
  end.

(** A setting found neither in the file nor in the environment. *)
Definition missing (config : C) (spec : string * string * string * string * bool)
  : bool :=
  let '(_, key, env_var, _, _) := spec in
  negb (in_file config key) && negb (in_environment env_var).

Definition prompt_of (spec : string * string * string * string * bool) : io C :=
  let '(_, _, _, msg, hide) := spec in Prompt msg hide.

(** The value one call of [get_config_value] gives, and what it asks. *)
Definition resolved (config : C) (key env_var prompt_msg : string) (hide_input : bool)
  : outcome string :=
  if in_file config key then get_option config "Settings" key
  else
    match environ m env_var with
    | Some value =>
        if String.eqb value "" then prompt m prompt_msg hide_input else Done value
    | None => prompt m prompt_msg hide_input
    end.

Definition asked (config : C) (key env_var prompt_msg : string) (hide_input : bool)
  : list (io C) :=
  if negb (in_file config key) && negb (in_environment env_var)
  then [Prompt prompt_msg hide_input] else [].

Definition is_upload_run (e : io C) : bool :=
  match e with UploadRun _ _ _ _ => true | _ => false end.

(** The events of [initialize_irida_api]. *)
Definition is_setup_event (e : io C) : bool :=
  match e with
  | Prompt _ _ | InitializeApi _ | CreateTemp _ | WriteTemp _ _ | AtExitUnlink _ => true
  | _ => false
  end.

End Commands.

(** *** A parser over association lists and a machine, for the examples *)

Module Example.

(** The sections of a parser, with the values as [config[section][key]]
    gives them. *)
Definition config : Type := list (string * list (string * string)).

(** [BasicInterpolation.before_set]: once the pairs [%%] and then the
    references [%(name)s] are taken out of the value, no [%] may be left.
    [name_end s n] is the length of [name)s] at the start of [s] when [n]
    characters of a name came before; [skip] counts the characters of a
    reference still to be passed over. *)
Fixpoint name_end (s : string) (n : nat) : option nat :=
  match s with
  | EmptyString => None
  | String ")" (String "s" _) => match n with O => None | _ => Some (n + 2) end
  | String ")" _ => None
  | String _ r => name_end r (Datatypes.S n)
  end.

Fixpoint stray_percent (skip : nat) (s : string) : bool :=
  match s with
  | EmptyString => false
  | String c r =>
      match skip with
      | Datatypes.S k => stray_percent k r
      | O =>
          if Ascii.eqb c "%" then
            match r with
            | String "(" r' =>
                match name_end r' 0 with
                | Some n => stray_percent (Datatypes.S n) r
                | None => true
                end
            | _ => true
            end
          else stray_percent 0 r
      end
  end.

Definition valid_value (v : string) : bool :=
  negb (stray_percent 0 (Py.str_replace "%%" "" v)).

Fixpoint assoc {A : Type} (k : string) (l : list (string * A)) : option A :=
  match l with
  | [] => None
  | (k', v) :: rest => if String.eqb k' k then Some v else assoc k rest
  end.

#[export] Instance parser : ConfigParser config := {|
  new_parser := [];
  has_section := fun c s => match assoc s c with Some _ => true | None => false end;
  has_option := fun c s k =>
    match assoc s c with
    | Some options => match assoc k options with Some _ => true | None => false end
    | None => false
    end;
  get_option := fun c s k =>
    match assoc s c with
    | Some options =>
        match assoc k options with
        | Some v => Done v
        | None => Failed (LibraryError "KeyError")
        end
    | None => Failed (LibraryError "KeyError")
    end;
  set_section := fun c s d =>
    if forallb (fun kv => valid_value (snd kv)) d then Done ((s, d) :: c)
    else Failed (LibraryError "ValueError")
|}.

(** A file with every setting. *)
Definition full_file : config :=
  [("Settings",
    [("base_url", "https://irida.example/api"); ("client_id", "uploader");
     ("client_secret", "s3cret"); ("username", "bot"); ("password", "pw");
     ("timeout", "10")])].

(** A file whose password holds a single [%]. *)
Definition percent_file : config :=
  [("Settings",
    [("base_url", "https://irida.example/api"); ("client_id", "uploader");
     ("client_secret", "s3cret"); ("username", "bot"); ("password", "p%w");
     ("timeout", "10")])].

(** A file without the password and the time-out. *)
Definition partial_file : config :=
  [("Settings",
    [("base_url", "https://irida.example/api"); ("client_id", "uploader");
     ("client_secret", "s3cret"); ("username", "bot")])].

(** A machine with the given configuration file at [config.conf], a
    manifest in [/data/run], the time-out in the environment and an empty
    password variable; the uploader ends with the given exit code. *)
Definition machine (file : config) (exit_code : Z) : Machine config :=
  {| path_exists := fun p =>
       String.eqb p "config.conf" || String.eqb p "/data/run/SampleList.csv";
     access_w := fun p => String.eqb p "/data/run/SampleList.csv";
     read_config := fun _ => Done file;
     environ := fun v =>
       if String.eqb v "IRIDA_TIMEOUT" then Some "20"
       else if String.eqb v "IRIDA_PASSWORD" then Some ""
       else if String.eqb v "IRIDA_BASE_URL" then Some "https://other.example"
       else None;
     prompt := fun msg _ => Done ("typed: " ++ msg)%string;
     initialize_api := fun _ => Done tt;
     temp_name := "/tmp/tmpabc.conf";
     config_setup := fun _ => Done tt;
     upload_run_single_entry := fun _ _ _ _ => Done exit_code |}.

End Example.

End Cli.

(** The names whose key is [k]. *)
Definition with_key (regex : Re.pattern) (k : Z) (names : list string) : list string :=
  filter (fun s => match sort_key regex s with
                   | Some k' => Z.eqb k' k
                   | None => false
                   end) names.


(* ================================================================== *)
(** ** Further inputs for the examples *)

Module Cases.

(** A paired-end folder whose second sample name does not end in a number. *)
Definition unnumbered_host : Host :=
  Demo.host [("*_R1_001.fastq.gz",
              ["S_1_S1_R1_001.fastq.gz"; "ctrl_S2_R1_001.fastq.gz";
               "S_3_S3_R1_001.fastq.gz"])].

(** A folder without read files. *)
Definition empty_host : Host := Demo.host [].

(** Three forward files, two of them with the same number. *)
Definition tied_names : list string :=
  ["B_5_S1_R1_001.fastq.gz"; "A_5_S2_R1_001.fastq.gz"; "C_2_S3_R1_001.fastq.gz"].

(** The values of the settings in [Cli.Example.full_file]. *)
Definition file_value (key : string) : string :=
  match Cli.Example.assoc "Settings" Cli.Example.full_file with
  | Some options =>
      match Cli.Example.assoc key options with
      | Some v => v
      | None => EmptyString
      end
  | None => EmptyString
  end.

End Cases.

(* ================================================================== *)
(** ** Facts about the string operations *)

Lemma prefix_app (p s : string) :
  prefix p s = true -> exists t, s = (p ++ t)%string.
Proof.
  revert s; induction p as [|a p IH]; intros s H.
  - exists s; reflexivity.
  - destruct s as [|b s]; simpl in H; [discriminate|].
    destruct (ascii_dec a b) as [->|]; [|discriminate].
    destruct (IH _ H) as [t ->]; exists t; reflexivity.
Qed.

Lemma length_append (a b : string) :
  String.length (a ++ b) = String.length a + String.length b.
Proof. induction a; simpl; congruence. Qed.

(** A replacement by a string of the same length keeps the length. *)
Lemma replace_from_length (old new : string) :
  0 < String.length old ->
  String.length old = String.length new ->
  forall s k, String.length (Py.replace_from old new k s) = String.length s - k.
Proof.
  intros Hpos Hlen; induction s as [|c t IH]; intros k; [reflexivity|].
  destruct k as [|k]; cbn [Py.replace_from].
  - destruct (prefix old (String c t)) eqn:E.
    + apply prefix_app in E. destruct E as [u E].
      rewrite length_append, IH, <- Hlen.
      destruct old as [|o old']; simpl in *; [lia|].
      injection E as -> ->. rewrite length_append. lia.
    + simpl. rewrite IH. lia.
  - rewrite IH. reflexivity.
Qed.


(** Where an occurrence is replaced, the result differs from the source. *)
Lemma replace_changes (old new : string) :
  0 < String.length old ->
  (forall x y : string, (new ++ x)%string <> (old ++ y)%string) ->
  forall s, Py.str_in old s = true -> Py.str_replace old new s <> s.
Proof.
  intros Hpos Hne; unfold Py.str_replace.
  induction s as [|c t IH]; intros Hin.
  - simpl in Hin. destruct old; simpl in *; [lia|discriminate].
  - cbn [Py.replace_from]. cbn [Py.str_in] in Hin.
    destruct (prefix old (String c t)) eqn:E.
    + apply prefix_app in E. destruct E as [u E]. rewrite E. apply Hne.
    + simpl in Hin. specialize (IH Hin). congruence.
Qed.

(** The characters of a name after [_R1_] has been replaced by [_R2_]:
    each is the character of the source at the same place, or the [2]
    that took the place of the [1] of an occurrence of [_R1_]. *)
Lemma replace_R1_pointwise (s : string) :
  forall k i,
    let r := Py.replace_from "_R1_" "_R2_" k s in
    get i r = get (i + k) s
    \/ (get i r = Some "2"%char /\ get (i + k) s = Some "1"%char
        /\ 2 <= i + k /\ substring (i + k - 2) 4 s = "_R1_").
Proof.
  induction s as [|c t IH]; intros k i; cbn zeta.
  - left. simpl. destruct i, k; reflexivity.
  - destruct k as [|k]; cbn [Py.replace_from].
    + destruct (prefix "_R1_" (String c t)) eqn:E.
      * apply prefix_app in E. destruct E as [u E].
        simpl in E. injection E as -> ->.
        cbn [String.length Nat.sub].
        destruct i as [|[|[|[|i]]]].
        -- left; reflexivity.
        -- left; reflexivity.
        -- right; split; [|split; [|split]]; try reflexivity. destruct u; reflexivity.
        -- left; reflexivity.
        -- specialize (IH 3 i). cbn zeta in IH.
           change (get (S (S (S (S i)))) ("_R2_" ++ ?x)) with (get i x).
           rewrite Nat.add_0_r.
           change (get (S (S (S (S i)))) (String "_" ("R1_" ++ u))) with (get (S (S (S i))) ("R1_" ++ u)).
           replace (S (S (S i))) with (i + 3) by lia.
           destruct IH as [IH|(H1 & H2 & H3 & H4)]; [left; exact IH|right].
           split; [|split; [|split]]; try assumption; try lia.
           replace (S (i + 3) - 2) with (S (i + 3 - 2)) by lia.
           exact H4.
      * destruct i as [|i]; [left; reflexivity|].
        specialize (IH 0 i). cbn zeta in IH. rewrite Nat.add_0_r in *.
        destruct IH as [IH|(H1 & H2 & H3 & H4)]; [left; exact IH|right].
        split; [|split; [|split]]; try assumption; try lia.
        replace (S i - 2) with (S (i - 2)) by lia. exact H4.
    + specialize (IH k i). cbn zeta in IH.
      replace (i + S k) with (S (i + k)) by lia.
      destruct IH as [IH|(H1 & H2 & H3 & H4)]; [left; exact IH|right].
      split; [|split; [|split]]; try assumption; try lia.
      replace (S (i + k) - 2) with (S (i + k - 2)) by lia. exact H4.
Qed.

(** C5.  The pairing rules are tried in order.  A name that contains
    [_R1_] gets the name with [_R2_] in its place: the two names have the
    same length and differ only where the [1] of an occurrence of [_R1_]
    became a [2], and they do differ.  Otherwise a name that contains
    [_R1.non_host.fastq.gz] gets the name with [_R2.non_host.fastq.gz] in
    its place.  Any other name raises the [ValueError] whose message
    carries the name. *)
Theorem pair_rules_in_order (f : string) :
  (Py.str_in "_R1_" f = true ->
   exists r, reverse_reads true f = Ok r
     /\ r = Py.str_replace "_R1_" "_R2_" f
     /\ String.length r = String.length f
     /\ r <> f
     /\ forall i, get i r <> get i f ->
          get i f = Some "1"%char /\ get i r = Some "2"%char
          /\ 2 <= i /\ substring (i - 2) 4 f = "_R1_")
  /\ (Py.str_in "_R1_" f = false ->
      Py.str_in "_R1.non_host.fastq.gz" f = true ->
      exists r, reverse_reads true f = Ok r
        /\ r = Py.str_replace "_R1.non_host.fastq.gz" "_R2.non_host.fastq.gz" f
        /\ String.length r = String.length f
        /\ r <> f)
  /\ (Py.str_in "_R1_" f = false ->
      Py.str_in "_R1.non_host.fastq.gz" f = false ->
      reverse_reads true f = Raise (ValueError ("Invalid file name: " ++ f))).
Proof.
  unfold reverse_reads. split; [|split].
  - intros H. rewrite H. eexists; split; [reflexivity|].
    split; [reflexivity|]. split; [|split].
    + unfold Py.str_replace. rewrite replace_from_length; simpl; lia.
    + apply replace_changes; [simpl; lia| |exact H].
      intros x y; simpl; congruence.
    + intros i Hi.
      pose proof (replace_R1_pointwise f 0 i) as P. cbn zeta in P.
      rewrite Nat.add_0_r in P. unfold Py.str_replace in *.
      destruct P as [P|(P1 & P2 & P3 & P4)]; [contradiction|].
      repeat (split; [assumption|]). assumption.
  - intros H1 H2. rewrite H1, H2. eexists; split; [reflexivity|].
    split; [reflexivity|]. split.
    + unfold Py.str_replace. rewrite replace_from_length; simpl; lia.
    + apply replace_changes; [simpl; lia| |exact H2].
      intros x y; simpl; congruence.
  - intros H1 H2. rewrite H1, H2. reflexivity.
Qed.

(* ================================================================== *)
(** ** Facts about the ordering *)

Lemma insert_perm (x : Z * string) (l : list (Z * string)) :
  Permutation (x :: l) (insert x l).
Proof.
  induction l as [|y l IH]; simpl; [apply Permutation_refl|].
  destruct (fst x <=? fst y)%Z; [apply Permutation_refl|].
  eapply perm_trans; [apply perm_swap|]. apply perm_skip, IH.
Qed.

Lemma stable_sort_perm (l : list (Z * string)) : Permutation l (stable_sort l).
Proof.
  induction l as [|x l IH]; simpl; [constructor|].
  eapply perm_trans; [apply perm_skip, IH|apply insert_perm].
Qed.

Lemma insert_sorted (x : Z * string) (l : list (Z * string)) :
  StronglySorted key_le l -> StronglySorted key_le (insert x l).
Proof.
  induction 1 as [|y l Hs IH Hy]; simpl.
  - repeat constructor.
  - destruct (fst x <=? fst y)%Z eqn:E.
    + apply Z.leb_le in E. constructor; [constructor; assumption|].
      constructor; [exact E|].
      eapply Forall_impl; [|exact Hy]. unfold key_le; intros; lia.
    + apply Z.leb_gt in E. constructor; [exact IH|].
      eapply Permutation_Forall; [apply insert_perm|].
      constructor; [unfold key_le; lia|exact Hy].
Qed.

Lemma stable_sort_sorted (l : list (Z * string)) :
  StronglySorted key_le (stable_sort l).
Proof.
  induction l; simpl; [constructor|apply insert_sorted; assumption].
Qed.

(** Sorting leaves a sorted list as it is. *)
Lemma stable_sort_fixed (l : list (Z * string)) :
  StronglySorted key_le l -> stable_sort l = l.
Proof.
  induction 1 as [|x l Hs IH Hx]; [reflexivity|].
  simpl. rewrite IH. destruct Hx as [|y l Hy _]; [reflexivity|].
  simpl. unfold key_le in Hy. apply Z.leb_le in Hy. rewrite Hy. reflexivity.
Qed.

Lemma sorted_nth (l : list (Z * string)) :
  StronglySorted key_le l ->
  forall i j x y, i < j -> nth_error l i = Some x -> nth_error l j = Some y ->
    key_le x y.
Proof.
  induction 1 as [|z l Hs IH Hz]; intros i j x y Hij Hx Hy.
  - destruct i; discriminate.
  - destruct j as [|j]; [lia|]. simpl in Hy.
    destruct i as [|i]; simpl in Hx.
    + injection Hx as ->. rewrite Forall_forall in Hz.
      apply Hz. eapply nth_error_In; eassumption.
    + eapply IH; [|eassumption|eassumption]. lia.
Qed.

Lemma keyed_ok (regex : Re.pattern) (names : list string) :
  Forall (fun s => sort_key regex s <> None) names ->
  exists l, keyed regex names = Ok l /\ map snd l = names /\ keys_agree regex l.
Proof.
  induction 1 as [|s names Hs _ IH].
  - exists []; repeat split; constructor.
  - destruct IH as (l & E & Hm & Hk). simpl.
    destruct (sort_key regex s) as [k|] eqn:Ek; [|congruence].
    rewrite E. exists ((k, s) :: l). repeat split.
    + simpl; congruence.
    + constructor; assumption.
Qed.

Lemma keyed_of_agree (regex : Re.pattern) (l : list (Z * string)) :
  keys_agree regex l -> keyed regex (map snd l) = Ok l.
Proof.
  induction 1 as [|[k s] l Hk _ IH]; [reflexivity|].
  simpl in *. rewrite Hk, IH. reflexivity.
Qed.

Lemma sorted_names_spec (regex : Re.pattern) (names : list string) :
  Forall (fun s => sort_key regex s <> None) names ->
  exists sorted,
    sorted_names regex names = Ok sorted
    /\ Permutation names sorted
    /\ (forall i j a b m n,
          nth_error sorted i = Some a -> nth_error sorted j = Some b ->
          sort_key regex a = Some m -> sort_key regex b = Some n ->
          (m < n)%Z -> i < j)
    /\ sorted_names regex sorted = Ok sorted.
Proof.
  intros H. destruct (keyed_ok regex names H) as (l & E & Hm & Hk).
  assert (Hk' : keys_agree regex (stable_sort l)).
  { eapply Permutation_Forall; [apply stable_sort_perm|exact Hk]. }
  exists (map snd (stable_sort l)). unfold sorted_names. rewrite E.
  split; [reflexivity|]. split; [|split].
  - rewrite <- Hm. apply Permutation_map, stable_sort_perm.
  - intros i j a b m n Ha Hb Km Kn Hlt.
    destruct (Nat.lt_ge_cases i j) as [|Hji]; [assumption|exfalso].
    rewrite nth_error_map in Ha, Hb.
    destruct (nth_error (stable_sort l) i) as [[ka a']|] eqn:Ea; [|discriminate].
    destruct (nth_error (stable_sort l) j) as [[kb b']|] eqn:Eb; [|discriminate].
    simpl in Ha, Hb. injection Ha as ->. injection Hb as ->.
    unfold keys_agree in Hk'. rewrite Forall_forall in Hk'.
    pose proof (Hk' _ (nth_error_In _ _ Ea)) as Ka.
    pose proof (Hk' _ (nth_error_In _ _ Eb)) as Kb.
    simpl in Ka, Kb. rewrite Ka in Km. rewrite Kb in Kn.
    injection Km as ->. injection Kn as ->.
    destruct (Nat.eq_dec j i) as [->|Hne].
    + rewrite Ea in Eb. injection Eb as -> _. lia.
    + assert (Hlt' : j < i) by lia.
      pose proof (sorted_nth _ (stable_sort_sorted l) j i _ _ Hlt' Eb Ea) as Hle.
      unfold key_le in Hle; simpl in Hle. lia.
  - rewrite (keyed_of_agree regex _ Hk').
    rewrite (stable_sort_fixed _ (stable_sort_sorted l)). reflexivity.
Qed.

Lemma keyed_inv (regex : Re.pattern) (names : list string) :
  forall l, keyed regex names = Ok l -> map snd l = names /\ keys_agree regex l.
Proof.
  induction names as [|s names IH]; intros l H; simpl in H.
  - injection H as <-. split; constructor.
  - destruct (sort_key regex s) as [k|] eqn:Ek; [|discriminate].
    destruct (keyed regex names) as [l'|e]; [|discriminate].
    injection H as <-. destruct (IH l' eq_refl) as [Hm Hk].
    split; [simpl; congruence|constructor; assumption].
Qed.

Lemma sorted_names_perm (regex : Re.pattern) (names sorted : list string) :
  sorted_names regex names = Ok sorted -> Permutation names sorted.
Proof.
  unfold sorted_names. destruct (keyed regex names) as [l|e] eqn:E; [|discriminate].
  intros H. injection H as <-. destruct (keyed_inv regex names l E) as [<- _].
  apply Permutation_map, stable_sort_perm.
Qed.

(** *** Numeric tokens *)

Lemma digit_not_space (c : ascii) : Py.is_digit c = true -> Py.is_space c = false.
Proof.
  destruct c as [[] [] [] [] [] [] [] []]; vm_compute; congruence.
Qed.

Lemma digit_not_sign (c : ascii) :
  Py.is_digit c = true -> c <> "+"%char /\ c <> "-"%char.
Proof.
  destruct c as [[] [] [] [] [] [] [] []]; vm_compute; intros; split; congruence.
Qed.

Lemma rstrip_digits (s : string) : all_digits s = true -> Py.rstrip s = s.
Proof.
  induction s as [|c r IH]; [reflexivity|]. simpl.
  intros H. apply andb_prop in H. destruct H as [Hc Hr].
  rewrite (IH Hr). destruct r; [|reflexivity].
  rewrite (digit_not_space c Hc). reflexivity.
Qed.

Lemma int_digits_all (s : string) :
  all_digits s = true ->
  forall acc, Py.int_digits acc true s = Some (decimal acc s).
Proof.
  induction s as [|c r IH]; intros H acc; [reflexivity|].
  simpl in *. apply andb_prop in H. destruct H as [Hc Hr].
  rewrite Hc. apply IH, Hr.
Qed.

(** [int] reads a string of digits as the number it denotes. *)
Lemma int_of_numeric (t : string) :
  numeric t = true -> Py.int t = Some (decimal 0 t).
Proof.
  destruct t as [|c r]; [discriminate|]. intros H. simpl in H.
  pose proof H as H'. apply andb_prop in H'. destruct H' as [Hc Hr].
  unfold Py.int.
  assert (E : Py.lstrip (String c r) = String c r).
  { simpl. rewrite (digit_not_space c Hc). reflexivity. }
  rewrite E, (rstrip_digits (String c r) H).
  destruct (digit_not_sign c Hc) as [Hp Hm].
  assert (G : Py.int_digits 0 false (String c r) = Some (decimal 0 (String c r))).
  { simpl. rewrite Hc. apply int_digits_all, Hr. }
  destruct c as [[] [] [] [] [] [] [] []]; try exact G; congruence.
Qed.

Lemma append_assoc (a b c : string) : ((a ++ b) ++ c = a ++ (b ++ c))%string.
Proof. induction a; simpl; congruence. Qed.

Lemma append_empty_r (a : string) : (a ++ "")%string = a.
Proof. induction a; simpl; congruence. Qed.

(* ================================================================== *)
(** ** Facts about the manifest text *)

Lemma has_char_cons (c a : ascii) (s : string) :
  has_char c (String a s) = Ascii.eqb c a || has_char c s.
Proof.
  unfold has_char. cbn [Py.str_in prefix].
  destruct (ascii_dec c a) as [->|Hne].
  - rewrite Ascii.eqb_refl. destruct s; reflexivity.
  - apply Ascii.eqb_neq in Hne. rewrite Hne. reflexivity.
Qed.

Lemma has_char_app (c : ascii) (a b : string) :
  has_char c (a ++ b) = has_char c a || has_char c b.
Proof.
  induction a as [|x a IH].
  - simpl. unfold has_char at 2. simpl. reflexivity.
  - cbn [append]. rewrite !has_char_cons, IH, orb_assoc. reflexivity.
Qed.

Lemma split_line (c : ascii) (l rest : string) :
  has_char c l = false ->
  Py.str_split c (l ++ String c rest) = l :: Py.str_split c rest.
Proof.
  induction l as [|a l IH]; intros H.
  - simpl. rewrite Ascii.eqb_refl. reflexivity.
  - rewrite has_char_cons in H. apply orb_false_elim in H. destruct H as [Hc Hl].
    cbn [append Py.str_split]. rewrite Ascii.eqb_sym, Hc, (IH Hl). reflexivity.
Qed.

Lemma split_field (f rest : string) :
  Py.str_in ", " f = false ->
  split_comma_space (f ++ ", " ++ rest) = f :: split_comma_space rest.
Proof.
  induction f as [|a f IH]; intros H; [reflexivity|].
  cbn [Py.str_in] in H. apply orb_false_elim in H. destruct H as [Hp Hf].
  specialize (IH Hf). cbn [append split_comma_space].
  destruct f as [|d f'].
  - cbn [append]. cbn [append] in IH.
    replace (Ascii.eqb a "," && Ascii.eqb "," " ") with false
      by (rewrite andb_false_r; reflexivity).
    rewrite IH. reflexivity.
  - cbn [append]. cbn [append] in IH.
    assert (E : Ascii.eqb a "," && Ascii.eqb d " " = false).
    { destruct (Ascii.eqb a ",") eqn:Ea; [|reflexivity].
      destruct (Ascii.eqb d " ") eqn:Ed; [|reflexivity].
      apply Ascii.eqb_eq in Ea, Ed. subst a d.
      destruct f'; vm_compute in Hp; discriminate. }
    rewrite E, IH. reflexivity.
Qed.

Lemma split_last_field (f : string) :
  Py.str_in ", " f = false -> split_comma_space f = [f].
Proof.
  induction f as [|a f IH]; intros H; [reflexivity|].
  cbn [Py.str_in] in H. apply orb_false_elim in H. destruct H as [Hp Hf].
  specialize (IH Hf). cbn [split_comma_space].
  destruct f as [|d f']; [reflexivity|].
  assert (E : Ascii.eqb a "," && Ascii.eqb d " " = false).
  { destruct (Ascii.eqb a ",") eqn:Ea; [|reflexivity].
    destruct (Ascii.eqb d " ") eqn:Ed; [|reflexivity].
    apply Ascii.eqb_eq in Ea, Ed. subst a d.
    destruct f'; vm_compute in Hp; discriminate. }
  rewrite E, IH. reflexivity.
Qed.

Lemma clean_record_fields (r : SampleRecord) :
  clean_record r = true ->
  (Py.str_in ", " (sample_id r) = false /\ Py.str_in ", " (project_id r) = false
   /\ Py.str_in ", " (forward_file r) = false
   /\ Py.str_in ", " (reverse_file r) = false)
  /\ has_char "010" (row_line r) = false.
Proof.
  unfold clean_record. intros H.
  apply andb_prop in H. destruct H as [H H4].
  apply andb_prop in H. destruct H as [H H3].
  apply andb_prop in H. destruct H as [H1 H2].
  unfold clean_field in *.
  apply andb_prop in H1, H2, H3, H4.
  destruct H1 as [C1 N1], H2 as [C2 N2], H3 as [C3 N3], H4 as [C4 N4].
  apply negb_true_iff in C1, C2, C3, C4, N1, N2, N3, N4.
  split; [auto|].
  unfold row_line. rewrite !has_char_app. unfold has_char. fold nl.
  rewrite N1, N2, N3, N4. reflexivity.
Qed.

Lemma parse_row_line (r : SampleRecord) :
  clean_record r = true -> parse_row (row_line r) = Some r.
Proof.
  intros H. destruct (clean_record_fields r H) as ((H1 & H2 & H3 & H4) & _).
  unfold parse_row, row_line.
  rewrite (split_field _ _ H1), (split_field _ _ H2), (split_field _ _ H3),
    (split_last_field _ H4).
  destruct r; reflexivity.
Qed.

Lemma record_row_line (r : SampleRecord) :
  record_row r = (row_line r ++ nl)%string.
Proof.
  unfold record_row, row, row_line. rewrite !append_assoc. reflexivity.
Qed.

Lemma lines_of_rows (recs : list SampleRecord) :
  forallb clean_record recs = true ->
  Py.str_split "010" (join (map record_row recs)) = map row_line recs ++ [EmptyString].
Proof.
  induction recs as [|r recs IH]; intros H; [reflexivity|].
  cbn [forallb] in H. apply andb_prop in H. destruct H as [Hr Hrecs].
  destruct (clean_record_fields r Hr) as (_ & Hnl).
  cbn [map join fold_right]. fold (join (map record_row recs)).
  rewrite record_row_line, append_assoc. unfold nl at 1. cbn [append].
  rewrite (split_line _ _ _ Hnl), (IH Hrecs). reflexivity.
Qed.

Lemma parse_rows_lines (recs : list SampleRecord) :
  forallb clean_record recs = true ->
  parse_rows (map row_line recs ++ [EmptyString]) = Some recs.
Proof.
  induction recs as [|r recs IH]; intros H; [reflexivity|].
  cbn [forallb] in H. apply andb_prop in H. destruct H as [Hr Hrecs].
  cbn [map app parse_rows]. rewrite (parse_row_line r Hr), (IH Hrecs).
  destruct (map row_line recs ++ [EmptyString]) eqn:E; [|reflexivity].
  destruct (map row_line recs); discriminate.
Qed.

Lemma split_first_line (l rest : string) :
  has_char "010" l = false ->
  Py.str_split "010" ((l ++ nl) ++ rest) = l :: Py.str_split "010" rest.
Proof.
  intros H. rewrite append_assoc. exact (split_line "010" l rest H).
Qed.

(** The lines of a manifest and what the reader makes of them. *)
Lemma manifest_text_reads_back (recs : list SampleRecord) :
  forallb clean_record recs = true ->
  Py.str_split "010" (manifest_text recs) =
    "[Data]" :: "Sample_Name,Project_ID,File_Forward,File_Reverse"
      :: map row_line recs ++ [EmptyString]
  /\ parse_manifest (manifest_text recs) = Some recs.
Proof.
  intros H.
  assert (L : Py.str_split "010" (manifest_text recs) =
    "[Data]" :: "Sample_Name,Project_ID,File_Forward,File_Reverse"
      :: map row_line recs ++ [EmptyString]).
  { unfold manifest_text, data_line, header_line.
    rewrite (split_first_line "[Data]" _ eq_refl).
    rewrite (split_first_line "Sample_Name,Project_ID,File_Forward,File_Reverse" _ eq_refl).
    rewrite (lines_of_rows recs H). reflexivity. }
  split; [exact L|]. unfold parse_manifest. rewrite L.
  change (String.eqb "[Data]" "[Data]") with true.
  change (String.eqb "Sample_Name,Project_ID,File_Forward,File_Reverse"
            "Sample_Name,Project_ID,File_Forward,File_Reverse") with true.
  cbn [andb]. apply parse_rows_lines, H.
Qed.

(* ================================================================== *)
(** ** Facts about the patterns *)

(** A repetition of at least one character matches no empty string. *)
Lemma rep_consumes (a : Re.atom) (lo hi : nat) (k : string -> option nat)
  (s : string) :
  Re.rep a (S lo) hi k s <> Some 0.
Proof.
  destruct hi as [|hi]; simpl; [discriminate|].
  destruct s as [|c s]; [discriminate|].
  destruct (Re.atom_matches a c); [|discriminate].
  destruct (Re.rep a lo hi k s); discriminate.
Qed.

Lemma match_here_consumes (r : Re.pattern) (t : string) :
  forallb consuming r = true -> Re.match_here r t <> Some 0.
Proof.
  induction r as [|p r IH]; intros H; [discriminate|].
  cbn [forallb] in H. apply andb_prop in H. destruct H as [Hp Hr].
  cbn [Re.match_here].
  destruct (Re.match_seq p t) as [n|] eqn:E; [|exact (IH Hr)].
  destruct p as [|[a [|lo] hi|l] p']; try discriminate.
  cbn [Re.match_seq] in E. intros H. injection H as ->.
  revert E. apply rep_consumes.
Qed.

Lemma regex_se_consumes (t : string) : Re.match_here regex_se t <> Some 0.
Proof. apply match_here_consumes. reflexivity. Qed.

(** [regex.split(s)[0]] is what stands before the leftmost match. *)
Lemma split_head_search (r : Re.pattern) (s : string) :
  (forall t, Re.match_here r t <> Some 0) ->
  split_head r s =
    match Re.search r s with
    | Some (i, _) => substring 0 i s
    | None => s
    end.
Proof.
  intros Hr. unfold split_head, Re.split.
  induction s as [|c t IH].
  - simpl. destruct (Re.match_here r ""); reflexivity.
  - cbn [Re.split_from Re.search].
    destruct (Re.match_here r (String c t)) as [[|n]|] eqn:E.
    + exfalso. exact (Hr _ E).
    + reflexivity.
    + assert (H : hd EmptyString
                    match Re.split_from r 0 t with
                    | [] => [String c EmptyString]
                    | h :: tl => String c h :: tl
                    end = String c (hd EmptyString (Re.split_from r 0 t))).
      { destruct (Re.split_from r 0 t); reflexivity. }
      rewrite H, IH. destruct (Re.search r t) as [[i n]|]; reflexivity.
Qed.

(** [Re.search] finds the leftmost match: the pattern matches where the
    found prefix ends, and after no shorter prefix. *)
Lemma search_leftmost (r : Re.pattern) (s : string) (i n : nat) :
  Re.search r s = Some (i, n) ->
  exists a b,
    s = (a ++ b)%string /\ String.length a = i /\ Re.match_here r b = Some n
    /\ forall a' b', s = (a' ++ b')%string -> String.length a' < i ->
         Re.match_here r b' = None.
Proof.
  revert i n. induction s as [|c t IH]; intros i n H; cbn [Re.search] in H.
  - destruct (Re.match_here r "") as [m|] eqn:E; [|discriminate].
    injection H as <- <-. exists "", "". conj; try reflexivity; try assumption.
    intros a' b' _ Hlt. simpl in Hlt. lia.
  - destruct (Re.match_here r (String c t)) as [m|] eqn:E.
    + injection H as <- <-. exists "", (String c t).
      conj; try reflexivity; try assumption.
      intros a' b' _ Hlt. simpl in Hlt. lia.
    + destruct (Re.search r t) as [[j m]|] eqn:Et; [|discriminate].
      injection H as <- <-.
      destruct (IH j m eq_refl) as (a & b & -> & Hlen & Hm & Hmin).
      exists (String c a), b. conj; try reflexivity; try assumption.
      * simpl. congruence.
      * intros a' b' Hs Hlt. destruct a' as [|c' a'].
        -- simpl in Hs. subst b'. exact E.
        -- simpl in Hs. injection Hs as -> Hs. apply (Hmin a' b' Hs).
           simpl in Hlt. lia.
Qed.

Lemma search_none (r : Re.pattern) (s : string) :
  Re.search r s = None ->
  forall a b, s = (a ++ b)%string -> Re.match_here r b = None.
Proof.
  induction s as [|c t IH]; intros H a b E; cbn [Re.search] in H.
  - destruct (Re.match_here r "") eqn:M; [discriminate|].
    destruct a; [|discriminate]. simpl in E. subst b. exact M.
  - destruct (Re.match_here r (String c t)) eqn:M; [discriminate|].
    destruct (Re.search r t) as [[i n]|] eqn:Et; [discriminate|].
    destruct a as [|c' a].
    + simpl in E. subst b. exact M.
    + simpl in E. injection E as _ E. exact (IH eq_refl a b E).
Qed.

Lemma substring_prefix (a b : string) :
  substring 0 (String.length a) (a ++ b) = a.
Proof.
  induction a as [|c a IH]; simpl; [destruct b; reflexivity|]. rewrite IH. reflexivity.
Qed.

Lemma regex_pe_consumes (t : string) : Re.match_here regex_pe t <> Some 0.
Proof. apply match_here_consumes. reflexivity. Qed.

Lemma digit_underscore (c : ascii) : Py.is_digit c = true -> Ascii.eqb "_" c = false.
Proof.
  destruct c as [[] [] [] [] [] [] [] []]; vm_compute; congruence.
Qed.

Lemma digits_underscore (s : string) : all_digits s = true -> has_char "_" s = false.
Proof.
  induction s as [|c s IH]; [reflexivity|]. cbn [all_digits]. intros H.
  apply andb_prop in H. destruct H as [Hc Hs].
  rewrite has_char_cons, (digit_underscore c Hc), (IH Hs). reflexivity.
Qed.

(** *** The key of a name that carries a number *)

Lemma app_eq_length (a a' b b' : string) :
  (a ++ b = a' ++ b')%string -> String.length a = String.length a' ->
  a = a' /\ b = b'.
Proof.
  revert a'. induction a as [|c a IH]; intros [|c' a'] E L; try discriminate.
  - split; [reflexivity|exact E].
  - simpl in E, L. injection E as -> E. injection L as L.
    destruct (IH a' E L) as [-> ->]. split; reflexivity.
Qed.

(** [regex.split(f)[0]] is the part of [f] before the place where the
    pattern first matches, or all of [f] when it matches nowhere. *)
Lemma split_head_before_token (r : Re.pattern) (f a b : string) :
  (forall t, Re.match_here r t <> Some 0) ->
  f = (a ++ b)%string ->
  (b = EmptyString \/ exists n, Re.match_here r b = Some (S n)) ->
  (forall a' b', f = (a' ++ b')%string -> String.length a' < String.length a ->
     Re.match_here r b' = None) ->
  split_head r f = a.
Proof.
  intros Hr Hf Hb Hmin. rewrite (split_head_search r f Hr).
  destruct (Re.search r f) as [[i n]|] eqn:E.
  - destruct (search_leftmost r f i n E) as (a0 & b0 & Hf0 & Hlen & Hm & Hmin0).
    destruct (Nat.lt_trichotomy (String.length a0) (String.length a)) as [Hlt|[Heq|Hgt]].
    + rewrite (Hmin a0 b0 Hf0 Hlt) in Hm. discriminate.
    + rewrite Hf in Hf0. destruct (app_eq_length a a0 b b0 Hf0 (eq_sym Heq)) as [<- <-].
      rewrite Hf, <- Hlen. apply substring_prefix.
    + destruct Hb as [->|[k Hk]].
      * exfalso. rewrite append_empty_r in Hf. subst f.
        pose proof (f_equal String.length Hf0) as L. rewrite length_append in L. lia.
      * rewrite (Hmin0 a b Hf) in Hk; [discriminate|lia].
  - destruct Hb as [->|[k Hk]].
    + rewrite append_empty_r in Hf. exact Hf.
    + rewrite (search_none r f E a b Hf) in Hk. discriminate.
Qed.

Lemma str_split_nonempty (c : ascii) (s : string) : Py.str_split c s <> [].
Proof.
  induction s as [|x s IH]; simpl; [discriminate|].
  destruct (Ascii.eqb x c); [discriminate|].
  destruct (Py.str_split c s); discriminate.
Qed.

(** The last item of a split is the last item of what follows a separator. *)
Lemma last_item_after_sep (c : ascii) (s d : string) :
  Py.last_item (Py.str_split c (s ++ String c d)) = Py.last_item (Py.str_split c d).
Proof.
  unfold Py.last_item.
  assert (G : exists h t, Py.str_split c (s ++ String c d) = h :: t /\ t <> []
                          /\ last t EmptyString = last (Py.str_split c d) EmptyString).
  { induction s as [|x s IH].
    - cbn [append Py.str_split]. rewrite Ascii.eqb_refl.
      exists EmptyString, (Py.str_split c d).
      conj; [reflexivity|apply str_split_nonempty|reflexivity].
    - destruct IH as (h & t & E & Ht & L). cbn [append Py.str_split]. rewrite E.
      destruct (Ascii.eqb x c).
      + exists EmptyString, (h :: t). conj; [reflexivity|discriminate|].
        destruct t; [congruence|exact L].
      + exists (String x h), t. conj; [reflexivity|exact Ht|exact L]. }
  destruct G as (h & t & -> & Ht & L). destruct t; [congruence|exact L].
Qed.

Lemma str_split_no_sep (c : ascii) (d : string) :
  has_char c d = false -> Py.str_split c d = [d].
Proof.
  induction d as [|x d IH]; [reflexivity|]. rewrite has_char_cons. intros H.
  apply orb_false_elim in H. destruct H as [Hx Hd]. cbn [Py.str_split].
  rewrite Ascii.eqb_sym, Hx, (IH Hd). reflexivity.
Qed.

Lemma numeric_digits (d : string) : numeric d = true -> all_digits d = true.
Proof. destruct d; [discriminate|exact (fun H => H)]. Qed.

(** The key of a name is the number that stands before its first token. *)
Lemma key_of_number (pe : bool) (f d : string) :
  let regex := if pe then regex_pe else regex_se in
  number_before_token regex f d ->
  key_token regex f = d /\ sort_key regex f = Some (decimal 0 d).
Proof.
  cbn zeta. set (regex := if pe then regex_pe else regex_se).
  intros (stem & rest & Hf & Hstem & Hd & Hrest & Hmin).
  assert (Hc : forall t, Re.match_here regex t <> Some 0).
  { intros t. unfold regex. destruct pe; [apply regex_pe_consumes|apply regex_se_consumes]. }
  assert (Hs : split_head regex f = (stem ++ d)%string).
  { apply (split_head_before_token regex f (stem ++ d) rest Hc); try assumption.
    rewrite append_assoc. exact Hf. }
  assert (Hk : key_token regex f = d).
  { unfold key_token. rewrite Hs.
    pose proof (str_split_no_sep "_" d (digits_underscore d (numeric_digits d Hd)))
      as Hsplit.
    destruct Hstem as [->|[s ->]].
    - cbn [append]. rewrite Hsplit. reflexivity.
    - rewrite append_assoc. cbn [append]. rewrite last_item_after_sep, Hsplit.
      reflexivity. }
  split; [exact Hk|]. unfold sort_key. rewrite Hk. apply int_of_numeric, Hd.
Qed.

(** A way to find the number: the leftmost match of the pattern starts
    right after the digits. *)
Lemma number_found_by_search (regex : Re.pattern) (stem d rest : string) (k : nat) :
  (stem = EmptyString \/ exists s, stem = (s ++ "_")%string) ->
  numeric d = true ->
  Re.search regex (stem ++ d ++ rest) = Some (String.length (stem ++ d), S k) ->
  number_before_token regex (stem ++ d ++ rest) d.
Proof.
  intros Hstem Hd Hs. exists stem, rest.
  destruct (search_leftmost regex _ _ _ Hs) as (a & b & Hf & Hlen & Hm & Hmin).
  rewrite <- append_assoc in Hf.
  destruct (app_eq_length _ _ _ _ Hf (eq_sym Hlen)) as [_ <-].
  conj; [reflexivity|exact Hstem|exact Hd|right; exists k; exact Hm|exact Hmin].
Qed.

(** C6.  Take file names that carry a number before their first stripped
    token: the part of the name before the first match of the pattern
    ends in a non-empty string of digits that starts the name or follows
    an underscore.  With the sort requested the ordering of such names
    succeeds and only permutes them; the key of each name is the number
    its digits denote; of two names the one with the smaller number
    stands strictly before the one with the larger number; and ordering
    the ordered names again gives them back unchanged. *)
Theorem sort_by_trailing_number (pe : bool) (names : list string) :
  let regex := if pe then regex_pe else regex_se in
  Forall (fun f => exists d, number_before_token regex f d) names ->
  exists sorted,
    order_names true regex names = Ok sorted
    /\ Permutation names sorted
    /\ (forall f d, number_before_token regex f d ->
          sort_key regex f = Some (decimal 0 d))
    /\ (forall i j a b da db,
          nth_error sorted i = Some a -> nth_error sorted j = Some b ->
          number_before_token regex a da -> number_before_token regex b db ->
          (decimal 0 da < decimal 0 db)%Z -> i < j)
    /\ order_names true regex sorted = Ok sorted.
Proof.
  intros regex H.
  assert (K : forall f d, number_before_token regex f d ->
                          sort_key regex f = Some (decimal 0 d)).
  { intros f d Hf. apply (key_of_number pe f d Hf). }
  assert (K' : Forall (fun s => sort_key regex s <> None) names).
  { eapply Forall_impl; [|exact H]. cbn beta. intros f [d Hd].
    rewrite (K f d Hd). discriminate. }
  destruct (sorted_names_spec regex names K') as (sorted & E & P & O & I).
  exists sorted. cbn [order_names]. conj; [exact E|exact P|exact K| |exact I].
  intros i j a b da db Ha Hb Na Nb Hlt.
  exact (O i j a b _ _ Ha Hb (K a da Na) (K b db Nb) Hlt).
Qed.

(* ================================================================== *)
(** ** Facts about a run *)

Section Facts.

Context {remote : Type} {api : IridaApi remote} (host : Host).

Lemma world_eta (w : world remote) :
  World (remote_st w) (sample_list w) (trace w) = w.
Proof. destruct w; reflexivity. Qed.

Lemma write_rows_run (pe : bool) (pid : string) (rows : list (string * string)) :
  forall (w : world remote) (c : string),
    sample_list w = Some c ->
    write_rows pe pid rows w =
      (snd (rows_outcome pe pid rows),
       World (remote_st w)
         (Some (c ++ join (map record_row (fst (rows_outcome pe pid rows))))%string)
         (trace w ++ write_events (fst (rows_outcome pe pid rows)))).
Proof.
  induction rows as [|[sid f] rest IH]; intros w c Hc.
  - simpl. rewrite append_empty_r, app_nil_r, <- Hc. unfold ret.
    rewrite world_eta. reflexivity.
  - cbn [write_rows rows_outcome]. unfold bind at 1, lift at 1.
    destruct (reverse_reads pe f) as [r|e].
    + unfold bind at 1, write at 1. rewrite Hc.
      erewrite IH by reflexivity.
      destruct (rows_outcome pe pid rest) as [recs res]. simpl.
      rewrite append_assoc, <- app_assoc. reflexivity.
    + simpl. rewrite append_empty_r, app_nil_r, <- Hc, world_eta. reflexivity.
Qed.

(** The run of lines 167-207 once the scan and the ordering are known. *)
Lemma build_manifest_run (path pattern : string) (pe sort : bool) (pid : string)
  (w : world remote) (names ordered : list string) :
  let regex := if pe then regex_pe else regex_se in
  rglob host path (if pe then pattern else "*.fastq.gz") = Ok names ->
  order_names sort regex names = Ok ordered ->
  writable host = true ->
  let out := rows_outcome pe pid (combine (map (split_head regex) ordered) ordered) in
  build_manifest host path pattern pe sort pid w =
    (snd out,
     World (remote_st w) (Some (manifest_text (fst out)))
       (trace w ++ header_events ++ write_events (fst out))).
Proof.
  intros regex Hscan Hord Hw out. unfold build_manifest.
  unfold bind at 1, lift at 1. rewrite Hscan.
  unfold bind at 1, lift at 1. fold regex. rewrite Hord.
  unfold bind at 1, open_sample_list. rewrite Hw.
  unfold bind at 1, write at 1. cbn [sample_list remote_st trace].
  unfold bind at 1, write at 1. cbn [sample_list remote_st trace].
  erewrite write_rows_run by reflexivity.
  cbn [remote_st trace]. fold out. unfold manifest_text, header_events.
  rewrite <- !app_assoc.
  change ("" ++ data_line)%string with data_line.
  rewrite append_assoc. reflexivity.
Qed.

(** Without the scan, the ordering or the file, nothing is written. *)
Lemma build_manifest_stops (path pattern : string) (pe sort : bool) (pid : string)
  (w : world remote) :
  let regex := if pe then regex_pe else regex_se in
  let scanned := rglob host path (if pe then pattern else "*.fastq.gz") in
  (forall e, scanned = Raise e ->
     build_manifest host path pattern pe sort pid w = (Raise e, w))
  /\ (forall names e, scanned = Ok names ->
        order_names sort regex names = Raise e ->
        build_manifest host path pattern pe sort pid w = (Raise e, w))
  /\ (forall names ordered, scanned = Ok names ->
        order_names sort regex names = Ok ordered ->
        writable host = false ->
        build_manifest host path pattern pe sort pid w =
          (Raise (OSError "SampleList.csv"), w)).
Proof.
  intros regex scanned. unfold build_manifest. fold regex. fold scanned.
  split; [|split].
  - intros e E. unfold bind at 1, lift at 1. rewrite E. reflexivity.
  - intros names e E1 E2. unfold bind at 1, lift at 1. rewrite E1.
    unfold bind at 1, lift at 1. rewrite E2. reflexivity.
  - intros names ordered E1 E2 E3. unfold bind at 1, lift at 1. rewrite E1.
    unfold bind at 1, lift at 1. rewrite E2.
    unfold bind at 1, open_sample_list. rewrite E3. reflexivity.
Qed.

Lemma reverse_reads_pairable (f : string) :
  pairable f = true -> reverse_reads true f = Ok (paired_name f).
Proof.
  unfold pairable, reverse_reads, paired_name. intros H.
  destruct (Py.str_in "_R1_" f); [reflexivity|].
  simpl in H. rewrite H. reflexivity.
Qed.

Lemma reverse_reads_unpairable (f : string) :
  pairable f = false ->
  reverse_reads true f = Raise (ValueError ("Invalid file name: " ++ f)).
Proof.
  unfold pairable, reverse_reads. intros H.
  apply orb_false_elim in H. destruct H as [-> ->]. reflexivity.
Qed.


Lemma rows_se (pid : string) (l : list string) :
  rows_outcome false pid (combine (map (split_head regex_se) l) l) =
    (map (se_record pid) l, Ok tt).
Proof.
  induction l as [|f l IH]; [reflexivity|].
  cbn [map combine rows_outcome reverse_reads]. rewrite IH. reflexivity.
Qed.

Lemma rows_pe_bad (pid : string) (before : list string) (bad : string)
  (after : list string) :
  forallb pairable before = true -> pairable bad = false ->
  rows_outcome true pid
    (combine (map (split_head regex_pe) (before ++ bad :: after))
       (before ++ bad :: after)) =
    (map (fun f => pe_record pid f (paired_name f)) before,
     Raise (ValueError ("Invalid file name: " ++ bad))).
Proof.
  intros Hb Hbad. induction before as [|f l IH].
  - cbn [app map combine rows_outcome].
    rewrite (reverse_reads_unpairable bad Hbad). reflexivity.
  - cbn [forallb] in Hb. apply andb_prop in Hb. destruct Hb as [Hf Hl].
    cbn [app map combine rows_outcome].
    rewrite (reverse_reads_pairable f Hf), (IH Hl). reflexivity.
Qed.


(** *** [create_project], case by case *)

Lemma create_project_run (name config : string) (desc : option string)
  (w : world remote) :
  create_project host name config desc w =
    match initialize_irida_api config (remote_st w) with
    | Raise e => (Raise e, add_events w [EvInitApi config])
    | Ok _ =>
        match get_projects (remote_st w) with
        | Raise e => (Raise e, add_events w [EvInitApi config; EvGetProjects])
        | Ok listing =>
            match existed listing name with
            | [] =>
                let new_project := MkProject name (description_of host desc) in
                let (r, rs) := send_project (remote_st w) new_project in
                match r with
                | Raise e =>
                    (Raise e,
                     World rs (sample_list w)
                       (trace w ++ [EvInitApi config; EvGetProjects;
                                    EvSendProject new_project]))
                | Ok created =>
                    let id := identifier (resp_resource created) in
                    (Ok id,
                     World rs (sample_list w)
                       (trace w ++ [EvInitApi config; EvGetProjects;
                                    EvSendProject new_project;
                                    EvLog Info (Text ("Created project " ++ name
                                                      ++ " - " ++ id))]))
                end
            | first :: others =>
                (Ok first,
                 add_events w
                   [EvInitApi config; EvGetProjects;
                    EvLog Warning (Text ("Project(s) " ++ name ++ " is existed"));
                    EvLog Info (Ids (first :: others))])
            end
        end
    end.
Proof.
  unfold create_project, api_initialize, api_get_projects, api_send_project,
    logging, emit, bind, ret, add_events, default_description, description_of.
  cbn [remote_st sample_list trace].
  destruct (initialize_irida_api config (remote_st w)) as [[]|e]; [|reflexivity].
  destruct (get_projects (remote_st w)) as [listing|e];
    [|rewrite <- app_assoc; reflexivity].
  destruct (existed listing name) as [|first others].
  - cbn [remote_st sample_list trace].
    destruct (send_project (remote_st w) _) as [[created|e] rs];
      cbn [remote_st sample_list trace]; rewrite <- !app_assoc; reflexivity.
  - cbn [remote_st sample_list trace]. rewrite <- !app_assoc. reflexivity.
Qed.

Lemma count_app (f : event -> bool) (a b : list event) :
  count f (a ++ b) = count f a + count f b.
Proof. unfold count. rewrite filter_app, length_app. reflexivity. Qed.

Lemma existed_none (listing : list project_ref) (name : string) :
  Forall (fun q => prj_name q <> name) listing -> existed listing name = [].
Proof.
  unfold existed. induction 1 as [|q l Hq _ IH]; [reflexivity|].
  simpl. apply String.eqb_neq in Hq. rewrite Hq. exact IH.
Qed.

Lemma existed_first (before : list project_ref) (p : project_ref)
  (after : list project_ref) (name : string) :
  Forall (fun q => prj_name q <> name) before -> prj_name p = name ->
  existed (before ++ p :: after) name = prj_id p :: existed after name.
Proof.
  intros Hb Hp. unfold existed. rewrite filter_app.
  fold (existed before name). change (map prj_id (?a ++ ?b)) with (map prj_id (a ++ b)).
  rewrite map_app. fold (existed before name). rewrite (existed_none _ _ Hb).
  simpl. rewrite Hp, String.eqb_refl. reflexivity.
Qed.

(** C3.  When the listing holds a project of the requested name (compared
    character by character), [create_project] returns the identifier of
    the first such project in listing order, sends no project, leaves the
    remote as it is and logs a warning - in every such case, so also when
    several listed projects share the name.  A second call on the
    unchanged listing returns the same identifier, again without sending
    a project. *)
Theorem existing_project_is_reused (name config : string) (desc : option string)
  (w : world remote) (before : list project_ref) (p : project_ref)
  (after : list project_ref) :
  initialize_irida_api config (remote_st w) = Ok tt ->
  get_projects (remote_st w) = Ok (before ++ p :: after) ->
  Forall (fun q => prj_name q <> name) before ->
  prj_name p = name ->
  let warning := EvLog Warning (Text ("Project(s) " ++ name ++ " is existed")) in
  let ids := existed (before ++ p :: after) name in
  let run1 := create_project host name config desc w in
  let run2 := create_project host name config desc (snd run1) in
  run1 = (Ok (prj_id p),
          add_events w [EvInitApi config; EvGetProjects; warning; EvLog Info (Ids ids)])
  /\ count is_send_project (trace (snd run1)) = count is_send_project (trace w)
  /\ (1 < List.length ids -> In warning (trace (snd run1)))
  /\ fst run2 = Ok (prj_id p)
  /\ remote_st (snd run2) = remote_st w
  /\ count is_send_project (trace (snd run2)) = count is_send_project (trace w).
Proof.
  intros Hi Hg Hb Hp warning ids run1 run2.
  assert (E1 : run1 = (Ok (prj_id p),
            add_events w [EvInitApi config; EvGetProjects; warning; EvLog Info (Ids ids)])).
  { unfold run1. rewrite create_project_run, Hi, Hg.
    unfold ids. rewrite (existed_first _ _ _ _ Hb Hp). reflexivity. }
  assert (E2 : run2 = (Ok (prj_id p),
            add_events (snd run1)
              [EvInitApi config; EvGetProjects; warning; EvLog Info (Ids ids)])).
  { unfold run2. rewrite create_project_run. rewrite E1.
    cbn [snd add_events remote_st]. rewrite Hi, Hg.
    unfold ids. rewrite (existed_first _ _ _ _ Hb Hp). reflexivity. }
  split; [exact E1|]. rewrite E2, E1. cbn [fst snd add_events remote_st trace].
  rewrite !count_app. cbn.
  conj; try lia; try reflexivity.
  intros _. apply in_or_app. right. simpl. auto.
Qed.

(** When no listed project has the requested name, [create_project]
    sends exactly one project, made of the name and, as second argument
    of the constructor, the given description or, without one, the dated
    default description; it returns the identifier of the answer. *)
Lemma absent_project_is_created (name config : string) (desc : option string)
  (w : world remote) (listing : list project_ref) (created : response)
  (rs : remote) :
  let description :=
    match desc with
    | None => ("Created on " ++ isoformat (today host) ++ " by BOT")%string
    | Some d => d
    end in
  let new_project := MkProject name description in
  let id := identifier (resp_resource created) in
  let run := create_project host name config desc w in
  initialize_irida_api config (remote_st w) = Ok tt ->
  get_projects (remote_st w) = Ok listing ->
  Forall (fun q => prj_name q <> name) listing ->
  send_project (remote_st w) new_project = (Ok created, rs) ->
  run = (Ok id,
         World rs (sample_list w)
           (trace w ++ [EvInitApi config; EvGetProjects; EvSendProject new_project;
                        EvLog Info (Text ("Created project " ++ name ++ " - " ++ id))]))
  /\ count is_send_project (trace (snd run)) = S (count is_send_project (trace w)).
Proof.
  intros description new_project id run Hi Hg Hl Hs.
  assert (E : run = (Ok id,
         World rs (sample_list w)
           (trace w ++ [EvInitApi config; EvGetProjects; EvSendProject new_project;
                        EvLog Info (Text ("Created project " ++ name ++ " - " ++ id))]))).
  { unfold run. rewrite create_project_run, Hi, Hg, (existed_none _ _ Hl).
    cbn zeta. fold (description_of host desc) in description.
    change (MkProject name (description_of host desc)) with new_project.
    rewrite Hs. reflexivity. }
  split; [exact E|]. rewrite E. cbn [snd trace]. rewrite count_app. cbn. lia.
Qed.

(** *** What the resolution and the writing touch *)

Lemma create_project_frame (name config : string) (desc : option string)
  (w : world remote) :
  let run := create_project host name config desc w in
  exists rest,
    trace (snd run) = trace w ++ EvInitApi config :: rest
    /\ sample_list (snd run) = sample_list w
    /\ no_file_event rest = true
    /\ count is_get_projects rest <= 1
    /\ count is_send_project rest <= 1
    /\ (forall p, fst run = Ok p -> count is_get_projects rest = 1)
    /\ (forall q, In (EvSendProject q) rest -> p_name q = name).
Proof.
  cbn zeta. rewrite create_project_run.
  destruct (initialize_irida_api config (remote_st w)) as [[]|e].
  2:{ exists []. cbn. conj; try reflexivity; try lia; intros; discriminate. }
  destruct (get_projects (remote_st w)) as [listing|e].
  2:{ exists [EvGetProjects]. cbn. conj; try reflexivity; try lia;
        try (intros; discriminate). intros q [H|[]]; discriminate. }
  destruct (existed listing name) as [|first others].
  - cbn zeta.
    destruct (send_project (remote_st w) _) as [[created|e] rs]; eexists;
      (split; [reflexivity|]); cbn; conj; try reflexivity; try lia;
      try (intros; discriminate); in_events.
  - eexists; (split; [reflexivity|]); cbn; conj; try reflexivity; try lia;
      try (intros; discriminate); in_events.
Qed.

Lemma resolve_pid_run (path : string) (pid name : option string) (config : string)
  (w : world remote) :
  resolve_pid host path pid name config w =
    match pid with
    | Some p => (Ok p, w)
    | None =>
        match name with
        | Some n => create_project host n config None w
        | None =>
            match derive_project_name host path with
            | Raise e => (Raise e, w)
            | Ok project_name =>
                create_project host project_name config None
                  (add_events w [EvLog Info (Text ("Project name is: " ++ project_name))])
            end
        end
    end.
Proof.
  unfold resolve_pid. destruct pid as [p|]; [reflexivity|].
  destruct name as [n|]; [reflexivity|].
  unfold bind at 1. unfold bind at 1, lift.
  destruct (derive_project_name host path) as [pn|e]; reflexivity.
Qed.

Lemma resolve_pid_frame (path : string) (pid name : option string) (config : string)
  (w : world remote) :
  let run := resolve_pid host path pid name config w in
  exists evs,
    trace (snd run) = trace w ++ evs
    /\ sample_list (snd run) = sample_list w
    /\ no_file_event evs = true
    /\ count is_get_projects evs <= 1
    /\ count is_send_project evs <= 1
    /\ (pid = None -> forall p, fst run = Ok p -> count is_get_projects evs = 1)
    /\ (forall p, pid = Some p -> evs = [] /\ run = (Ok p, w)).
Proof.
  cbn zeta. rewrite resolve_pid_run. destruct pid as [p|].
  { exists []. cbn. rewrite app_nil_r.
    conj; try reflexivity; try lia; try discriminate.
    intros q Hq. injection Hq as ->. split; reflexivity. }
  destruct name as [n|].
  { destruct (create_project_frame n config None w)
      as (rest & Ht & Hs & Hf & Hg & Hc & Hok & _).
    exists (EvInitApi config :: rest). cbn.
    conj; try assumption; try (intros; discriminate).
    intros _ p Hp. apply (Hok p Hp). }
  destruct (derive_project_name host path) as [pn|e].
  2:{ exists []. cbn. rewrite app_nil_r.
      conj; try reflexivity; try lia; intros; discriminate. }
  destruct (create_project_frame pn config None
              (add_events w [EvLog Info (Text ("Project name is: " ++ pn))]))
    as (rest & Ht & Hs & Hf & Hg & Hc & Hok & _).
  exists (EvLog Info (Text ("Project name is: " ++ pn)) :: EvInitApi config :: rest).
  cbn [add_events trace sample_list] in Ht, Hs. rewrite <- app_assoc in Ht. cbn.
  conj; try assumption; try (intros; discriminate).
  intros _ p Hp. apply (Hok p Hp).
Qed.


Lemma prepare_run (path pattern : string) (pid name : option string)
  (pe sort : bool) (config : string) (w : world remote) :
  prepare host path pattern pid name pe sort config w =
    match resolve_pid host path pid name config w with
    | (Ok p, w1) => build_manifest host path pattern pe sort p w1
    | (Raise e, w1) => (Raise e, w1)
    end.
Proof. reflexivity. Qed.






(** C9.  In single-end mode the scan uses [*.fastq.gz] whatever pattern
    the caller gave; when the run succeeds the manifest holds one record
    per scanned name, in order, each with an empty reverse file and with
    the sample id that stands before the leftmost match of [.fastq|.fq.]
    in the name; [A.fastq.gz] and [B.fastq.gz] give [A] and [B]. *)
Theorem single_end_manifest (path pattern : string) (pid name : option string)
  (sort : bool) (config : string) (w : world remote) (p : string)
  (w1 : world remote) (names ordered : list string) :
  resolve_pid host path pid name config w = (Ok p, w1) ->
  rglob host path "*.fastq.gz" = Ok names ->
  order_names sort regex_se names = Ok ordered ->
  writable host = true ->
  let recs := map (se_record p) ordered in
  prepare host path pattern pid name false sort config w =
    (Ok tt,
     World (remote_st w1) (Some (manifest_text recs))
       (trace w1 ++ header_events ++ write_events recs))
  /\ map forward_file recs = ordered
  /\ Forall (fun r => reverse_file r = EmptyString) recs
  /\ Forall (fun r => project_id r = p) recs
  /\ (forall f,
        sample_id (se_record p f) =
          match Re.search regex_se f with
          | Some (i, _) => substring 0 i f
          | None => f
          end)
  /\ sample_id (se_record p "A.fastq.gz") = "A"
  /\ sample_id (se_record p "B.fastq.gz") = "B".
Proof.
  intros Hr Hscan Hord Hw recs.
  split; [|split; [|split; [|split; [|split]]]].
  - rewrite prepare_run, Hr.
    rewrite (build_manifest_run path pattern false sort p w1 names ordered Hscan Hord Hw).
    cbn zeta. rewrite rows_se. reflexivity.
  - unfold recs. rewrite map_map. apply map_id.
  - unfold recs. apply Forall_map, Forall_forall. reflexivity.
  - unfold recs. apply Forall_map, Forall_forall. reflexivity.
  - intros f. apply split_head_search, regex_se_consumes.
  - split; reflexivity.
Qed.

(** In paired-end mode, when the names to write are some pairable names
    followed by a name that no pairing rule accepts, the run ends with
    the [ValueError] carrying that name; by then the manifest has been
    opened and holds the two header lines and the rows of the names
    before it, and nothing else. *)
Lemma writing_stops_at_unpairable (path pattern : string)
  (pid name : option string) (sort : bool) (config : string) (w : world remote)
  (p : string) (w1 : world remote) (names before : list string) (bad : string)
  (after : list string) :
  resolve_pid host path pid name config w = (Ok p, w1) ->
  rglob host path pattern = Ok names ->
  order_names sort regex_pe names = Ok (before ++ bad :: after) ->
  forallb pairable before = true ->
  pairable bad = false ->
  writable host = true ->
  let recs := map (fun f => pe_record p f (paired_name f)) before in
  prepare host path pattern pid name true sort config w =
    (Raise (ValueError ("Invalid file name: " ++ bad)),
     World (remote_st w1) (Some (manifest_text recs))
       (trace w1 ++ header_events ++ write_events recs)).
Proof.
  intros Hr Hscan Hord Hb Hbad Hw recs.
  rewrite prepare_run, Hr.
  rewrite (build_manifest_run path pattern true sort p w1 names _ Hscan Hord Hw).
  cbn zeta. rewrite (rows_pe_bad p before bad after Hb Hbad). reflexivity.
Qed.

Lemma forallb_perm {A : Type} (f : A -> bool) (l l' : list A) :
  Permutation l l' -> forallb f l = forallb f l'.
Proof.
  induction 1 as [|x l l' _ IH|x y l|l l' l'' _ IH1 _ IH2]; cbn [forallb].
  - reflexivity.
  - rewrite IH. reflexivity.
  - destruct (f x), (f y); reflexivity.
  - congruence.
Qed.

(** The first name of a list that no pairing rule accepts. *)
Lemma first_unpairable (l : list string) :
  forallb pairable l = false ->
  exists before bad after,
    l = before ++ bad :: after
    /\ forallb pairable before = true /\ pairable bad = false.
Proof.
  induction l as [|f l IH]; [discriminate|]. cbn [forallb]. intros H.
  destruct (pairable f) eqn:Hf.
  - destruct (IH H) as (before & bad & after & -> & Hb & Hbad).
    exists (f :: before), bad, after. conj; [reflexivity| |exact Hbad].
    cbn [forallb]. rewrite Hf, Hb. reflexivity.
  - exists [], f, l. conj; [reflexivity|reflexivity|exact Hf].
Qed.

(** C1, amended.  Take a paired-end run whose project identifier is
    resolved and whose scan gives names of which at least one falls under
    no pairing rule.  The run does not succeed.  When the sort is
    requested and fails, the run ends with the error of the sort, and
    when the manifest cannot be opened, with the error of the opening; in
    both cases the file is as it was before the run.  Otherwise the run
    ends with the
    [ValueError] that carries the first such name in the order of the
    manifest; by then the manifest has been created or emptied and holds
    the two header lines and the rows of the names before that name, and
    nothing else. *)
Theorem unpairable_name_stops_the_writing (path pattern : string)
  (pid name : option string) (sort : bool) (config : string) (w : world remote)
  (p : string) (w1 : world remote) (names : list string) :
  resolve_pid host path pid name config w = (Ok p, w1) ->
  rglob host path pattern = Ok names ->
  forallb pairable names = false ->
  let run := prepare host path pattern pid name true sort config w in
  (forall u, fst run <> Ok u)
  /\ sample_list w1 = sample_list w
  /\ match order_names sort regex_pe names with
     | Raise e => run = (Raise e, w1)
     | Ok ordered =>
         if writable host then
           exists before bad after,
             ordered = before ++ bad :: after
             /\ forallb pairable before = true
             /\ pairable bad = false
             /\ let recs := map (fun f => pe_record p f (paired_name f)) before in
                run = (Raise (ValueError ("Invalid file name: " ++ bad)),
                       World (remote_st w1) (Some (manifest_text recs))
                         (trace w1 ++ header_events ++ write_events recs))
         else run = (Raise (OSError "SampleList.csv"), w1)
     end.
Proof.
  intros Hr Hscan Hbad run.
  destruct (build_manifest_stops path pattern true sort p w1) as (_ & S2 & S3).
  assert (Hrun : run = build_manifest host path pattern true sort p w1).
  { unfold run. rewrite prepare_run, Hr. reflexivity. }
  assert (Hfile : sample_list w1 = sample_list w).
  { destruct (resolve_pid_frame path pid name config w) as (evs & _ & Hs & _).
    cbn zeta in Hs. rewrite Hr in Hs. exact Hs. }
  destruct (order_names sort regex_pe names) as [ordered|e] eqn:Hord.
  2:{ rewrite Hrun, (S2 names e Hscan Hord). conj; [discriminate|exact Hfile|reflexivity]. }
  destruct (writable host) eqn:Hw.
  2:{ rewrite Hrun, (S3 names ordered Hscan Hord eq_refl).
      conj; [discriminate|exact Hfile|reflexivity]. }
  assert (Hperm : Permutation names ordered).
  { destruct sort; cbn [order_names] in Hord.
    - exact (sorted_names_perm regex_pe names ordered Hord).
    - injection Hord as <-. apply Permutation_refl. }
  rewrite (forallb_perm pairable names ordered Hperm) in Hbad.
  destruct (first_unpairable ordered Hbad) as (before & bad & after & E & Hb & Hf).
  subst ordered.
  pose proof (writing_stops_at_unpairable path pattern pid name sort config w p w1
                names before bad after Hr Hscan Hord Hb Hf Hw) as Hstop.
  cbn zeta in Hstop. fold run in Hstop. conj.
  - rewrite Hstop. discriminate.
  - exact Hfile.
  - exists before, bad, after. conj; [reflexivity|exact Hb|exact Hf|exact Hstop].
Qed.

(** C2, amended.  In a sorted paired-end run the key of a name is the
    last underscore-delimited piece of what stands before the first
    stripped token.  For [A_S10_R1_001.fastq.gz] and [A_S2_R1_001.fastq.gz]
    that piece is [A], which [int] refuses: the run ends with its
    [ValueError] and writes nothing.  For [A_10_S1_R1_001.fastq.gz] and
    [A_2_S2_R1_001.fastq.gz] the keys are 10 and 2, the run succeeds and
    the row of the second name stands before the row of the first. *)
Theorem sort_key_is_the_sample_name_tail (path pattern : string)
  (pid name : option string) (config : string) (w : world remote)
  (p : string) (w1 : world remote) (names : list string) :
  resolve_pid host path pid name config w = (Ok p, w1) ->
  rglob host path pattern = Ok names ->
  writable host = true ->
  let final := prepare host path pattern pid name true true config w in
  (names = ["A_S10_R1_001.fastq.gz"; "A_S2_R1_001.fastq.gz"] ->
   key_token regex_pe "A_S10_R1_001.fastq.gz" = "A"
   /\ key_token regex_pe "A_S2_R1_001.fastq.gz" = "A"
   /\ Py.int "A" = None
   /\ final = (Raise (IntValueError "A"), w1))
  /\ (names = ["A_10_S1_R1_001.fastq.gz"; "A_2_S2_R1_001.fastq.gz"] ->
      let recs :=
        [pe_record p "A_2_S2_R1_001.fastq.gz" "A_2_S2_R2_001.fastq.gz";
         pe_record p "A_10_S1_R1_001.fastq.gz" "A_10_S1_R2_001.fastq.gz"] in
      sort_key regex_pe "A_2_S2_R1_001.fastq.gz" = Some 2%Z
      /\ sort_key regex_pe "A_10_S1_R1_001.fastq.gz" = Some 10%Z
      /\ final =
           (Ok tt,
            World (remote_st w1) (Some (manifest_text recs))
              (trace w1 ++ header_events ++ write_events recs))).
Proof.
  intros Hr Hscan Hw final. unfold final. rewrite prepare_run, Hr. split.
  - intros ->. conj; try reflexivity.
    destruct (build_manifest_stops path pattern true true p w1) as (_ & S2 & _).
    apply (S2 _ _ Hscan). reflexivity.
  - intros ->. cbn zeta. conj; try reflexivity.
    rewrite (build_manifest_run path pattern true true p w1 _
               ["A_2_S2_R1_001.fastq.gz"; "A_10_S1_R1_001.fastq.gz"] Hscan eq_refl Hw).
    reflexivity.
Qed.

(** *** A run that ends well *)

Lemma reverse_reads_ok (pe : bool) (f r : string) :
  reverse_reads pe f = Ok r -> r = reverse_name pe f.
Proof.
  unfold reverse_reads, reverse_name, paired_name. destruct pe.
  - destruct (Py.str_in "_R1_" f); [congruence|].
    destruct (Py.str_in "_R1.non_host.fastq.gz" f); [congruence|discriminate].
  - congruence.
Qed.

Lemma rows_ok (pe : bool) (pid : string) (l : list string) :
  let regex := if pe then regex_pe else regex_se in
  snd (rows_outcome pe pid (combine (map (split_head regex) l) l)) = Ok tt ->
  fst (rows_outcome pe pid (combine (map (split_head regex) l) l)) =
    map (run_record pe pid) l.
Proof.
  cbn zeta. induction l as [|f l IH]; [reflexivity|].
  cbn [map combine rows_outcome].
  destruct (reverse_reads pe f) as [r|e] eqn:E; [|discriminate].
  apply reverse_reads_ok in E. subst r.
  destruct (rows_outcome pe pid (combine (map _ l) l)) as [recs res].
  cbn [fst snd] in *. intros H. rewrite (IH H). reflexivity.
Qed.

Lemma build_manifest_ok (path pattern : string) (pe sort : bool) (pid : string)
  (w w' : world remote) :
  build_manifest host path pattern pe sort pid w = (Ok tt, w') ->
  exists names ordered,
    rglob host path (if pe then pattern else "*.fastq.gz") = Ok names
    /\ order_names sort (if pe then regex_pe else regex_se) names = Ok ordered
    /\ w' = World (remote_st w)
              (Some (manifest_text (map (run_record pe pid) ordered)))
              (trace w ++ header_events
                 ++ write_events (map (run_record pe pid) ordered)).
Proof.
  intros H.
  destruct (build_manifest_stops path pattern pe sort pid w) as (S1 & S2 & S3).
  destruct (rglob host path (if pe then pattern else "*.fastq.gz"))
    as [names|e] eqn:Escan.
  2:{ rewrite (S1 e eq_refl) in H. discriminate. }
  destruct (order_names sort (if pe then regex_pe else regex_se) names)
    as [ordered|e] eqn:Eord.
  2:{ rewrite (S2 names e eq_refl Eord) in H. discriminate. }
  destruct (writable host) eqn:Ew.
  2:{ rewrite (S3 names ordered eq_refl Eord eq_refl) in H. discriminate. }
  rewrite (build_manifest_run path pattern pe sort pid w names ordered Escan Eord Ew)
    in H.
  cbn zeta in H. injection H as Hres Hw.
  rewrite (rows_ok pe pid ordered Hres) in Hw.
  exists names, ordered. conj; first [reflexivity|assumption|symmetry; exact Hw].
Qed.

(** C8, amended.  A successful writing leaves in the file the text of the
    records of the ordered names: the line [[Data]], the line of column
    names, then per record the four fields separated by a comma and a
    space and closed by a line feed.  When no field holds a comma
    followed by a space or a line feed, the text has one line per record
    after the two header lines and the reader gives back the same
    records in the same order. *)
Theorem written_manifest_reads_back (path pattern : string) (pe sort : bool)
  (pid : string) (w w' : world remote) :
  build_manifest host path pattern pe sort pid w = (Ok tt, w') ->
  exists names ordered,
    rglob host path (if pe then pattern else "*.fastq.gz") = Ok names
    /\ order_names sort (if pe then regex_pe else regex_se) names = Ok ordered
    /\ let recs := map (run_record pe pid) ordered in
       sample_list w' = Some (manifest_text recs)
       /\ manifest_text recs =
            ("[Data]" ++ nl
             ++ "Sample_Name,Project_ID,File_Forward,File_Reverse" ++ nl
             ++ join (map (fun r => sample_id r ++ ", " ++ project_id r ++ ", "
                                    ++ forward_file r ++ ", " ++ reverse_file r
                                    ++ nl) recs))%string
       /\ (forallb clean_record recs = true ->
           Py.str_split "010" (manifest_text recs) =
             "[Data]" :: "Sample_Name,Project_ID,File_Forward,File_Reverse"
               :: map row_line recs ++ [EmptyString]
           /\ parse_manifest (manifest_text recs) = Some recs).
Proof.
  intros H.
  destruct (build_manifest_ok path pattern pe sort pid w w' H)
    as (names & ordered & Hscan & Hord & ->).
  exists names, ordered. split; [exact Hscan|]. split; [exact Hord|].
  cbn zeta. split; [reflexivity|]. split.
  - unfold manifest_text, data_line, header_line.
    rewrite !append_assoc. reflexivity.
  - apply manifest_text_reads_back.
Qed.

End Facts.

(* ================================================================== *)
(** ** The statements at concrete inputs *)

Lemma unpairable_name_stops_the_writing_witness :
  prepare (api := Demo.api) Demo.mixed_host Demo.run_folder "*.gz" (Some "7") None
    true false Demo.config (Demo.start []) =
    (Raise (ValueError "Invalid file name: weird.file.gz"),
     World []
       (Some (manifest_text
                [pe_record "7" "X_S1_R1_001.fastq.gz" "X_S1_R2_001.fastq.gz"]))
       (header_events
          ++ write_events
               [pe_record "7" "X_S1_R1_001.fastq.gz" "X_S1_R2_001.fastq.gz"])).
Proof.
  destruct (unpairable_name_stops_the_writing (api := Demo.api) Demo.mixed_host
              Demo.run_folder "*.gz" (Some "7") None false Demo.config
              (Demo.start []) "7" (Demo.start [])
              ["X_S1_R1_001.fastq.gz"; "weird.file.gz"]
              eq_refl eq_refl eq_refl)
    as (_ & _ & before & bad & after & E & Hb & Hbad & Hrun).
  destruct before as [|b0 [|b1 before]]; cbn [app] in E.
  - injection E as <- _. discriminate Hbad.
  - injection E as <- <- _. exact Hrun.
  - injection E as _ _ E. destruct before; discriminate E.
Defined.

(** The same folder with the sort requested: the key of the first name
    is no integer, and the run ends before the manifest is opened. *)
Lemma failing_sort_comes_first :
  prepare (api := Demo.api) Demo.mixed_host Demo.run_folder "*.gz" (Some "7") None
    true true Demo.config (Demo.start []) =
    (Raise (IntValueError "X"), Demo.start []).
Proof. vm_compute. reflexivity. Qed.

Lemma partial_manifest_after_unpairable_name :
  sample_list (Demo.start []) = None
  /\ fst Demo.mixed_run = Raise (ValueError "Invalid file name: weird.file.gz")
  /\ sample_list (snd Demo.mixed_run) =
       Some ("[Data]" ++ nl
             ++ "Sample_Name,Project_ID,File_Forward,File_Reverse" ++ nl
             ++ "X, 7, X_S1_R1_001.fastq.gz, X_S1_R2_001.fastq.gz" ++ nl)%string.
Proof. conj; vm_compute; reflexivity. Qed.

Lemma sort_key_is_the_sample_name_tail_witness :
  sort_key regex_pe "A_2_S2_R1_001.fastq.gz" = Some 2%Z
  /\ sort_key regex_pe "A_10_S1_R1_001.fastq.gz" = Some 10%Z
  /\ Demo.numbered_run =
       (Ok tt,
        World []
          (Some (manifest_text
                   [pe_record "7" "A_2_S2_R1_001.fastq.gz" "A_2_S2_R2_001.fastq.gz";
                    pe_record "7" "A_10_S1_R1_001.fastq.gz" "A_10_S1_R2_001.fastq.gz"]))
          (header_events
             ++ write_events
                  [pe_record "7" "A_2_S2_R1_001.fastq.gz" "A_2_S2_R2_001.fastq.gz";
                   pe_record "7" "A_10_S1_R1_001.fastq.gz" "A_10_S1_R2_001.fastq.gz"])).
Proof.
  exact (proj2 (sort_key_is_the_sample_name_tail (api := Demo.api)
                  Demo.numbered_host Demo.run_folder "*_R1_001.fastq.gz"
                  (Some "7") None Demo.config (Demo.start []) "7" (Demo.start [])
                  Demo.numbered_names eq_refl eq_refl eq_refl) eq_refl).
Defined.

Lemma sort_fails_on_s_numbered_names :
  sorted_names regex_pe ["A_S10_R1_001.fastq.gz"; "A_S2_R1_001.fastq.gz"] =
    Raise (IntValueError "A")
  /\ Demo.s_numbered_run = (Raise (IntValueError "A"), Demo.start []).
Proof. split; vm_compute; reflexivity. Qed.

Lemma existing_project_is_reused_witness :
  create_project (api := Demo.api) (Demo.host []) "demo" Demo.config None
    (Demo.start Demo.listing) =
    (Ok "7",
     add_events (Demo.start Demo.listing)
       [EvInitApi Demo.config; EvGetProjects;
        EvLog Warning (Text "Project(s) demo is existed");
        EvLog Info (Ids ["7"; "9"])]).
Proof.
  refine (proj1 (existing_project_is_reused (api := Demo.api) (Demo.host []) "demo"
                   Demo.config None (Demo.start Demo.listing)
                   [ProjectRef "3" "Demo"] (ProjectRef "7" "demo")
                   [ProjectRef "9" "demo"] eq_refl eq_refl _ eq_refl)).
  constructor; [discriminate|constructor].
Defined.

Lemma absent_project_is_created_example :
  create_project (api := Demo.api) (Demo.host []) "demo" Demo.config None
    (Demo.start [ProjectRef "3" "Demo"]) =
    (Ok "P01",
     World [ProjectRef "3" "Demo"; ProjectRef "P01" "demo"] None
       [EvInitApi Demo.config; EvGetProjects;
        EvSendProject (MkProject "demo" "Created on 2024-05-17 by BOT");
        EvLog Info (Text "Created project demo - P01")]).
Proof.
  refine (proj1 (absent_project_is_created (api := Demo.api) (Demo.host []) "demo"
                   Demo.config None (Demo.start [ProjectRef "3" "Demo"])
                   [ProjectRef "3" "Demo"]
                   (Response (Resource "P01"))
                   [ProjectRef "3" "Demo"; ProjectRef "P01" "demo"]
                   eq_refl eq_refl _ eq_refl)).
  constructor; [discriminate|constructor].
Defined.

(** C4.  Creating the project [demo], which the listing does not hold,
    without a description: one project is sent and the identifier of the
    answer is returned, but the dated default description travels as the
    sample list of the project that is sent, and its description is
    [None]. *)
Theorem description_sent_as_sample_list :
  let run := create_project (api := Demo.api) (Demo.host []) "demo" Demo.config None
               (Demo.start [ProjectRef "3" "Demo"]) in
  fst run = Ok "P01"
  /\ filter is_send_project (trace (snd run)) =
       [EvSendProject {| p_name := "demo";
                         p_sample_list := Some "Created on 2024-05-17 by BOT";
                         p_description := None;
                         p_id := None |}].
Proof. split; vm_compute; reflexivity. Qed.

Lemma sort_by_trailing_number_witness :
  exists sorted,
    order_names true regex_pe Demo.numbered_names = Ok sorted
    /\ sorted = ["A_2_S2_R1_001.fastq.gz"; "A_10_S1_R1_001.fastq.gz"]
    /\ sort_key regex_pe "A_10_S1_R1_001.fastq.gz" = Some 10%Z
    /\ order_names true regex_pe sorted = Ok sorted.
Proof.
  assert (N10 : number_before_token regex_pe "A_10_S1_R1_001.fastq.gz" "10").
  { apply (number_found_by_search regex_pe "A_" "10" "_S1_R1_001.fastq.gz" 2);
      [right; exists "A"; reflexivity|reflexivity|reflexivity]. }
  assert (N2 : number_before_token regex_pe "A_2_S2_R1_001.fastq.gz" "2").
  { apply (number_found_by_search regex_pe "A_" "2" "_S2_R1_001.fastq.gz" 2);
      [right; exists "A"; reflexivity|reflexivity|reflexivity]. }
  destruct (sort_by_trailing_number true Demo.numbered_names)
    as (sorted & E & _ & K & _ & I).
  - constructor; [exists "10"; exact N10|].
    constructor; [exists "2"; exact N2|constructor].
  - exists sorted. conj; [exact E| |exact (K _ _ N10)|exact I].
    cbn in E. injection E as <-. reflexivity.
Defined.


Lemma different_records_same_manifest :
  fst Demo.comma_run = Ok tt
  /\ fst Demo.plain_run = Ok tt
  /\ sample_list (snd Demo.comma_run) =
       Some (manifest_text [se_record "p" "y, y.fastq.gz"])
  /\ sample_list (snd Demo.plain_run) =
       Some (manifest_text [se_record "y, p, y" "y.fastq.gz"])
  /\ sample_list (snd Demo.comma_run) = sample_list (snd Demo.plain_run)
  /\ [se_record "p" "y, y.fastq.gz"] <> [se_record "y, p, y" "y.fastq.gz"]
  /\ parse_manifest (manifest_text [se_record "p" "y, y.fastq.gz"]) = None.
Proof. conj; try (vm_compute; reflexivity). vm_compute. discriminate. Qed.

Lemma single_end_manifest_witness :
  prepare (api := Demo.api) Demo.single_host Demo.run_folder "*_R1_001.fastq.gz"
    (Some "7") None false false Demo.config (Demo.start []) =
    (Ok tt,
     World []
       (Some (manifest_text [se_record "7" "A.fastq.gz"; se_record "7" "B.fastq.gz"]))
       (header_events
          ++ write_events [se_record "7" "A.fastq.gz"; se_record "7" "B.fastq.gz"])).
Proof.
  exact (proj1 (single_end_manifest (api := Demo.api) Demo.single_host
                  Demo.run_folder "*_R1_001.fastq.gz" (Some "7") None false
                  Demo.config (Demo.start []) "7" (Demo.start [])
                  ["A.fastq.gz"; "B.fastq.gz"] ["A.fastq.gz"; "B.fastq.gz"]
                  eq_refl eq_refl eq_refl eq_refl)).
Defined.

Lemma written_manifest_reads_back_witness :
  exists text,
    sample_list (snd Demo.single_build) = Some text
    /\ parse_manifest text =
         Some [se_record "7" "A.fastq.gz"; se_record "7" "B.fastq.gz"].
Proof.
  destruct (written_manifest_reads_back Demo.single_host
              Demo.run_folder "*_R1_001.fastq.gz" false false "7" (Demo.start [])
              (snd Demo.single_build) eq_refl)
    as (names & ordered & Hscan & Hord & Hfile & _ & Hread).
  injection Hscan as <-. injection Hord as <-.
  exists (manifest_text [se_record "7" "A.fastq.gz"; se_record "7" "B.fastq.gz"]).
  split; [exact Hfile|exact (proj2 (Hread eq_refl))].
Defined.

(* ================================================================== *)
(** ** Further facts about [prepare] *)

(** The first name without an integer key stops [keyed]. *)
Lemma keyed_stops (regex : Re.pattern) (before : list string) (bad : string)
  (after : list string) :
  Forall (fun s => sort_key regex s <> None) before ->
  sort_key regex bad = None ->
  keyed regex (before ++ bad :: after) = Raise (IntValueError (key_token regex bad)).
Proof.
  intros Hb Hbad. induction Hb as [|s l Hs _ IH]; simpl.
  - rewrite Hbad. reflexivity.
  - destruct (sort_key regex s); [|congruence]. rewrite IH. reflexivity.
Qed.

Lemma str_in_middle (sub a b : string) : Py.str_in sub (a ++ sub ++ b) = true.
Proof.
  induction a as [|c a IH]; cbn [append].
  - assert (H : prefix sub (sub ++ b) = true).
    { clear. induction sub as [|x sub IH]; simpl; [destruct b; reflexivity|].
      destruct (ascii_dec x x); [assumption|congruence]. }
    destruct (sub ++ b)%string; simpl in *; rewrite H; reflexivity.
  - cbn [Py.str_in]. rewrite IH. apply orb_true_r.
Qed.

(** Filtering by key commutes with the insertion. *)
Lemma filter_insert (k : Z) (x : Z * string) (l : list (Z * string)) :
  filter (fun p => Z.eqb (fst p) k) (insert x l) =
  filter (fun p => Z.eqb (fst p) k) (x :: l).
Proof.
  induction l as [|y l IH]; [reflexivity|].
  cbn [insert]. destruct (fst x <=? fst y)%Z eqn:E; [reflexivity|].
  apply Z.leb_gt in E. cbn [filter] in *. rewrite IH.
  destruct (Z.eqb (fst x) k) eqn:Ex, (Z.eqb (fst y) k) eqn:Ey; try reflexivity.
  apply Z.eqb_eq in Ex, Ey. lia.
Qed.

Lemma filter_stable_sort (k : Z) (l : list (Z * string)) :
  filter (fun p => Z.eqb (fst p) k) (stable_sort l) =
  filter (fun p => Z.eqb (fst p) k) l.
Proof.
  induction l as [|x l IH]; [reflexivity|].
  cbn [stable_sort fold_right]. fold (stable_sort l).
  rewrite filter_insert. cbn [filter]. rewrite IH. reflexivity.
Qed.

Lemma with_key_map (regex : Re.pattern) (k : Z) (l : list (Z * string)) :
  keys_agree regex l ->
  with_key regex k (map snd l) = map snd (filter (fun p => Z.eqb (fst p) k) l).
Proof.
  unfold with_key. induction 1 as [|[k' s] l Hk _ IH]; [reflexivity|].
  simpl in *. rewrite Hk, IH. destruct (Z.eqb k' k); reflexivity.
Qed.

(** X9.  The sort is stable: whenever it succeeds, the names with a given
    key stand in the sorted list in the order in which the scan gave
    them. *)
Theorem equal_keys_keep_scan_order (regex : Re.pattern) (names sorted : list string) :
  sorted_names regex names = Ok sorted ->
  forall k, with_key regex k sorted = with_key regex k names.
Proof.
  unfold sorted_names. destruct (keyed regex names) as [l|e] eqn:E; [|discriminate].
  intros H k. injection H as <-. destruct (keyed_inv regex names l E) as [<- Hk].
  rewrite (with_key_map regex k l Hk).
  rewrite with_key_map.
  - rewrite filter_stable_sort. reflexivity.
  - eapply Permutation_Forall; [apply stable_sort_perm|exact Hk].
Qed.

(** X7.  In both modes the sample id is a leading part of the file name;
    what follows it is empty (the whole name is the sample id) or starts
    with a match of the pattern, and no match of the pattern starts
    inside the sample id. *)
Theorem sample_id_is_leading_part (pe : bool) (f : string) :
  let regex := if pe then regex_pe else regex_se in
  let sid := split_head regex f in
  exists rest,
    f = (sid ++ rest)%string
    /\ (rest = EmptyString \/ exists n, Re.match_here regex rest = Some (S n))
    /\ (forall a b, f = (a ++ b)%string -> String.length a < String.length sid ->
          Re.match_here regex b = None).
Proof.
  cbn zeta. set (regex := if pe then regex_pe else regex_se).
  assert (Hc : forall t, Re.match_here regex t <> Some 0).
  { intros t. unfold regex. destruct pe; [apply regex_pe_consumes|apply regex_se_consumes]. }
  rewrite (split_head_search regex f Hc).
  destruct (Re.search regex f) as [[i n]|] eqn:E.
  - destruct (search_leftmost regex f i n E) as (a & b & -> & Hlen & Hm & Hmin).
    subst i. rewrite substring_prefix. exists b. conj; [reflexivity| |exact Hmin].
    right. destruct n as [|n]; [exfalso; exact (Hc _ Hm)|]. exists n. exact Hm.
  - exists EmptyString. conj.
    + clear. induction f; simpl; congruence.
    + left; reflexivity.
    + intros a b Hf _. exact (search_none regex f E a b Hf).
Qed.

Lemma replace_underscore (s : string) :
  has_char "_" (Py.str_replace "_" "-" s) = false.
Proof.
  unfold Py.str_replace. induction s as [|c t IH]; [reflexivity|].
  cbn [Py.replace_from prefix]. destruct (ascii_dec "_" c) as [<-|Hne].
  - replace (if prefix "" t then _ else _)
      with ("-" ++ Py.replace_from "_" "-" 0 t)%string by (destruct t; reflexivity).
    cbn [append String.length Nat.sub]. rewrite has_char_cons, IH. reflexivity.
  - rewrite has_char_cons, IH. apply Ascii.eqb_neq in Hne. rewrite Hne. reflexivity.
Qed.

Lemma digit_char_digit (n : nat) : Py.is_digit (digit_char n) = true.
Proof.
  unfold digit_char. pose proof (Nat.mod_upper_bound n 10) as H.
  destruct (n mod 10) as [|[|[|[|[|[|[|[|[|[|m]]]]]]]]]]; try reflexivity. lia.
Qed.

Lemma all_digits_app (a b : string) :
  all_digits (a ++ b) = all_digits a && all_digits b.
Proof.
  induction a as [|c a IH]; [reflexivity|].
  cbn [append all_digits]. rewrite IH, andb_assoc. reflexivity.
Qed.

Lemma pad2_digits (n : nat) : all_digits (pad2 n) = true.
Proof. unfold pad2. cbn [all_digits]. rewrite !digit_char_digit. reflexivity. Qed.

Lemma substring_skip (a b : string) (n : nat) :
  substring (String.length a) n (a ++ b) = substring 0 n b.
Proof. induction a as [|c a IH]; simpl; [reflexivity|exact IH]. Qed.

(** What [[0-9]{6}(?=\_NB)] matches: six digits. *)
Lemma run_date_match (b : string) (n : nat) :
  Re.match_here regex_run_date b = Some n ->
  all_digits (substring 0 n b) = true /\ String.length (substring 0 n b) = 6.
Proof.
  unfold regex_run_date. cbn [Re.match_here Re.match_seq].
  destruct b as [|c1 [|c2 [|c3 [|c4 [|c5 [|c6 b]]]]]];
    cbn [Re.rep Nat.eqb pred];
    repeat match goal with
           | |- context [Re.atom_matches ?a ?c] =>
               let E := fresh "E" in
               destruct (Re.atom_matches a c) eqn:E; try discriminate
           end; try discriminate.
  destruct (prefix "_NB" b); [|discriminate].
  intros H. injection H as <-.
  cbn [substring]. replace (substring 0 0 b) with EmptyString by (destruct b; reflexivity).
  split; [|reflexivity]. cbn [all_digits].
  repeat match goal with
         | H : Re.atom_matches (Re.Range "0" "9") ?c = true |- _ =>
             change (Py.is_digit c = true) in H; rewrite H; clear H
         end.
  reflexivity.
Qed.

Section MoreFacts.

Context {remote : Type} {api : IridaApi remote} (host : Host).

(** The run date is made of six digits, found in the path or not. *)
Lemma run_date_digits (path : string) :
  all_digits (run_date host path) = true /\ String.length (run_date host path) = 6.
Proof.
  unfold run_date. destruct (Re.search regex_run_date path) as [[i n]|] eqn:E.
  - destruct (search_leftmost _ _ _ _ E) as (a & b & -> & <- & Hm & _).
    rewrite substring_skip. exact (run_date_match b n Hm).
  - unfold strftime_ymd. rewrite !all_digits_app, !pad2_digits.
    split; reflexivity.
Qed.

(** X8.  The project name made for a path is [QIB-], the last part of the
    path with every underscore turned into a hyphen, a hyphen and a run
    date of six digits; it holds no underscore.  A path without any part
    raises [IndexError]. *)
Theorem derived_project_name_shape (path : string) :
  match derive_project_name host path with
  | Ok project_name =>
      exists parts last_part folder date,
        path_parts path = parts ++ [last_part]
        /\ project_name = ("QIB-" ++ folder ++ "-" ++ date)%string
        /\ folder = Py.str_replace "_" "-" last_part
        /\ String.length folder = String.length last_part
        /\ all_digits date = true /\ String.length date = 6
        /\ has_char "_" project_name = false
  | Raise e => e = IndexError /\ path_parts path = []
  end.
Proof.
  unfold derive_project_name.
  destruct (rev (path_parts path)) as [|last_part others] eqn:E;
    apply (f_equal (@rev string)) in E; rewrite rev_involutive in E.
  - split; [reflexivity|exact E].
  - destruct (run_date_digits path) as [Hd Hl].
    exists (rev others), last_part, (Py.str_replace "_" "-" last_part),
      (run_date host path).
    conj; try reflexivity; try assumption.
    + unfold Py.str_replace. rewrite replace_from_length; simpl; lia.
    + rewrite !has_char_app, replace_underscore, (digits_underscore _ Hd). reflexivity.
Qed.

(** X1.  With the sort requested, the first scanned name whose key is no
    integer ends the run with the [ValueError] of [int] on its token,
    after the project identifier has been resolved and before the
    manifest is opened: the file is as it was. *)
Theorem unsortable_name_stops_before_writing (path pattern : string)
  (pid name : option string) (pe : bool) (config : string) (w : world remote)
  (p : string) (w1 : world remote) (before : list string) (bad : string)
  (after : list string) :
  let regex := if pe then regex_pe else regex_se in
  resolve_pid host path pid name config w = (Ok p, w1) ->
  rglob host path (if pe then pattern else "*.fastq.gz") = Ok (before ++ bad :: after) ->
  Forall (fun s => sort_key regex s <> None) before ->
  sort_key regex bad = None ->
  prepare host path pattern pid name pe true config w =
    (Raise (IntValueError (key_token regex bad)), w1)
  /\ sample_list w1 = sample_list w.
Proof.
  intros regex Hr Hscan Hb Hbad. split.
  - rewrite prepare_run, Hr.
    destruct (build_manifest_stops host path pattern pe true p w1) as (_ & S2 & _).
    apply (S2 _ _ Hscan). unfold order_names, sorted_names. fold regex.
    rewrite (keyed_stops regex before bad after Hb Hbad). reflexivity.
  - destruct (resolve_pid_frame host path pid name config w) as (evs & _ & Hs & _).
    cbn zeta in Hs. rewrite Hr in Hs. exact Hs.
Qed.

(** X2.  An error of the client library during the resolution of a named
    project ends [prepare] with that very error and leaves the manifest
    untouched: after a failed set-up only the set-up was tried, after a
    failed listing no project is sent, and after a failed sending nothing
    is logged or written. *)
Theorem remote_failure_stops_before_writing (path pattern n : string)
  (pe sort : bool) (config : string) (w : world remote) :
  let run := prepare host path pattern None (Some n) pe sort config w in
  let new_project := MkProject n (description_of host None) in
  (forall e, initialize_irida_api config (remote_st w) = Raise e ->
     run = (Raise e, add_events w [EvInitApi config]))
  /\ (forall e, initialize_irida_api config (remote_st w) = Ok tt ->
        get_projects (remote_st w) = Raise e ->
        run = (Raise e, add_events w [EvInitApi config; EvGetProjects]))
  /\ (forall listing e rs, initialize_irida_api config (remote_st w) = Ok tt ->
        get_projects (remote_st w) = Ok listing ->
        existed listing n = [] ->
        send_project (remote_st w) new_project = (Raise e, rs) ->
        run = (Raise e,
               World rs (sample_list w)
                 (trace w ++ [EvInitApi config; EvGetProjects;
                              EvSendProject new_project]))).
Proof.
  cbn zeta. rewrite prepare_run, resolve_pid_run, create_project_run. conj.
  - intros e ->. reflexivity.
  - intros e -> ->. reflexivity.
  - intros listing e rs -> -> -> Hs. cbn zeta. rewrite Hs. reflexivity.
Qed.

Lemma paired_name_differs (f : string) :
  pairable f = true ->
  paired_name f <> f /\ String.length (paired_name f) = String.length f.
Proof.
  unfold pairable, paired_name. intros H.
  destruct (Py.str_in "_R1_" f) eqn:E1.
  - split.
    + apply replace_changes; [simpl; lia| |exact E1]. intros x y; simpl; congruence.
    + unfold Py.str_replace. rewrite replace_from_length; simpl; lia.
  - simpl in H. split.
    + apply replace_changes; [simpl; lia| |exact H]. intros x y; simpl; congruence.
    + unfold Py.str_replace. rewrite replace_from_length; simpl; lia.
Qed.

(** X3.  A paired-end run whose names are all accepted by a pairing rule
    succeeds and writes one row per name, in order; the reverse file of a
    row is never the forward file itself and has a name of the same
    length. *)
Theorem paired_end_manifest (path pattern : string) (pid name : option string)
  (sort : bool) (config : string) (w : world remote) (p : string)
  (w1 : world remote) (names ordered : list string) :
  resolve_pid host path pid name config w = (Ok p, w1) ->
  rglob host path pattern = Ok names ->
  order_names sort regex_pe names = Ok ordered ->
  forallb pairable ordered = true ->
  writable host = true ->
  let recs := map (fun f => pe_record p f (paired_name f)) ordered in
  prepare host path pattern pid name true sort config w =
    (Ok tt,
     World (remote_st w1) (Some (manifest_text recs))
       (trace w1 ++ header_events ++ write_events recs))
  /\ map forward_file recs = ordered
  /\ Forall (fun r => reverse_file r <> forward_file r
                      /\ String.length (reverse_file r)
                         = String.length (forward_file r)) recs.
Proof.
  intros Hr Hscan Hord Hp Hw recs. conj.
  - rewrite prepare_run, Hr.
    rewrite (build_manifest_run host path pattern true sort p w1 names ordered
               Hscan Hord Hw).
    cbn zeta.
    assert (E : rows_outcome true p (combine (map (split_head regex_pe) ordered) ordered)
                = (recs, Ok tt)).
    { unfold recs. clear - Hp. induction ordered as [|f l IH]; [reflexivity|].
      cbn [forallb] in Hp. apply andb_prop in Hp. destruct Hp as [Hf Hl].
      cbn [map combine rows_outcome].
      rewrite (reverse_reads_pairable f Hf), (IH Hl). reflexivity. }
    rewrite E. reflexivity.
  - unfold recs. rewrite map_map. apply map_id.
  - unfold recs. apply Forall_map. rewrite forallb_forall in Hp.
    apply Forall_forall. intros f Hf. cbn [reverse_file forward_file pe_record].
    apply paired_name_differs, Hp, Hf.
Qed.

(** X4.  Names that end in [_R1_001.fastq.gz], as the default pattern
    finds them, are all accepted by the first pairing rule: a paired-end
    run on such names, sorted or not, does not fail once the names are
    ordered. *)
Theorem default_pattern_names_pair (path pattern : string) (pid name : option string)
  (sort : bool) (config : string) (w : world remote) (p : string)
  (w1 : world remote) (names ordered : list string) :
  resolve_pid host path pid name config w = (Ok p, w1) ->
  rglob host path pattern = Ok names ->
  Forall (fun f => exists stem, f = (stem ++ "_R1_001.fastq.gz")%string) names ->
  order_names sort regex_pe names = Ok ordered ->
  writable host = true ->
  forallb pairable names = true
  /\ fst (prepare host path pattern pid name true sort config w) = Ok tt.
Proof.
  intros Hr Hscan Hn Hord Hw.
  assert (P : forall l, Forall (fun f => exists stem, f = (stem ++ "_R1_001.fastq.gz")%string) l ->
                        forallb pairable l = true).
  { intros l Hl. apply forallb_forall. rewrite Forall_forall in Hl.
    intros f Hf. destruct (Hl f Hf) as [stem ->]. unfold pairable.
    pose proof (str_in_middle "_R1_" stem "001.fastq.gz") as H.
    change ("_R1_" ++ "001.fastq.gz")%string with "_R1_001.fastq.gz" in H.
    rewrite H. reflexivity. }
  split; [exact (P names Hn)|].
  assert (Ho : forallb pairable ordered = true).
  { apply P. destruct sort; cbn [order_names] in Hord.
    - eapply Permutation_Forall; [exact (sorted_names_perm _ _ _ Hord)|exact Hn].
    - injection Hord as <-. exact Hn. }
  rewrite prepare_run, Hr.
  rewrite (build_manifest_run host path pattern true sort p w1 names ordered
             Hscan Hord Hw).
  cbn zeta.
  assert (E : snd (rows_outcome true p
                     (combine (map (split_head regex_pe) ordered) ordered)) = Ok tt).
  { clear - Ho. induction ordered as [|f l IH]; [reflexivity|].
    cbn [forallb] in Ho. apply andb_prop in Ho. destruct Ho as [Hf Hl].
    cbn [map combine rows_outcome]. rewrite (reverse_reads_pairable f Hf).
    specialize (IH Hl). destruct (rows_outcome true p _). exact IH. }
  exact E.
Qed.


(** X6.  When the scan finds no file, the writing succeeds in every mode
    and the manifest holds the two header lines only. *)
Theorem empty_scan_writes_the_headers (path pattern : string) (pe sort : bool)
  (pid : string) (w : world remote) :
  rglob host path (if pe then pattern else "*.fastq.gz") = Ok [] ->
  writable host = true ->
  build_manifest host path pattern pe sort pid w =
    (Ok tt,
     World (remote_st w) (Some (data_line ++ header_line)%string)
       (trace w ++ header_events)).
Proof.
  intros Hscan Hw.
  rewrite (build_manifest_run host path pattern pe sort pid w [] [] Hscan).
  - cbn zeta. destruct pe; cbn [map combine rows_outcome fst snd write_events];
      unfold manifest_text; cbn [map join fold_right];
      rewrite app_nil_r, append_empty_r; reflexivity.
  - destruct sort; reflexivity.
  - exact Hw.
Qed.

End MoreFacts.

(* ================================================================== *)
(** ** Facts about the settings and [upload] *)

Section CliFacts.

Import Cli.

Context {C : Type} {parser : ConfigParser C} (m : Machine C).

Lemma get_config_value_run (config : C) (key env_var msg : string) (hide : bool)
  (t : list (io C)) :
  get_config_value m config "Settings" key env_var msg hide t =
    (resolved m config key env_var msg hide,
     t ++ asked m config key env_var msg hide).
Proof.
  unfold get_config_value, resolved, asked, in_file, in_environment, ask.
  destruct (has_section config "Settings" && has_option config "Settings" key).
  - cbn. rewrite app_nil_r. reflexivity.
  - destruct (environ m env_var) as [value|]; [|reflexivity].
    destruct (String.eqb value ""); [reflexivity|].
    cbn. rewrite app_nil_r. reflexivity.
Qed.

Lemma asked_setup (config : C) (key env_var msg : string) (hide : bool) :
  forallb is_setup_event (asked m config key env_var msg hide) = true.
Proof. unfold asked. destruct (_ && _); reflexivity. Qed.

Lemma asked_no_temp (config : C) (key env_var msg : string) (hide : bool) :
  existsb is_temp_event (asked m config key env_var msg hide) = false.
Proof. unfold asked. destruct (_ && _); reflexivity. Qed.

(** [initialize_irida_api], step by step. *)
Lemma initialize_run (config_file : option string) (t : list (io C)) :
  initialize_irida_api m config_file t =
    match load_config m config_file with
    | Failed f => (Failed f, t)
    | Done config =>
        let a1 := asked m config "base_url" "IRIDA_BASE_URL" "Enter IRIDA base URL" false in
        let a2 := asked m config "client_id" "IRIDA_CLIENT_ID" "Enter IRIDA client ID" false in
        let a3 := asked m config "client_secret" "IRIDA_CLIENT_SECRET"
                    "Enter IRIDA client secret" true in
        let a4 := asked m config "username" "IRIDA_USERNAME" "Enter IRIDA username" false in
        let a5 := asked m config "password" "IRIDA_PASSWORD" "Enter IRIDA password" true in
        let a6 := asked m config "timeout" "IRIDA_TIMEOUT" "Enter API timeout" false in
        match resolved m config "base_url" "IRIDA_BASE_URL" "Enter IRIDA base URL" false with
        | Failed f => (Failed f, t ++ a1)
        | Done base_url =>
        match resolved m config "client_id" "IRIDA_CLIENT_ID" "Enter IRIDA client ID" false with
        | Failed f => (Failed f, t ++ a1 ++ a2)
        | Done client_id =>
        match resolved m config "client_secret" "IRIDA_CLIENT_SECRET"
                "Enter IRIDA client secret" true with
        | Failed f => (Failed f, t ++ a1 ++ a2 ++ a3)
        | Done client_secret =>
        match resolved m config "username" "IRIDA_USERNAME" "Enter IRIDA username" false with
        | Failed f => (Failed f, t ++ a1 ++ a2 ++ a3 ++ a4)
        | Done username =>
        match resolved m config "password" "IRIDA_PASSWORD" "Enter IRIDA password" true with
        | Failed f => (Failed f, t ++ a1 ++ a2 ++ a3 ++ a4 ++ a5)
        | Done password =>
        match resolved m config "timeout" "IRIDA_TIMEOUT" "Enter API timeout" false with
        | Failed f => (Failed f, t ++ a1 ++ a2 ++ a3 ++ a4 ++ a5 ++ a6)
        | Done timeout =>
            let settings :=
              [("base_url", base_url); ("client_id", client_id);
               ("client_secret", client_secret); ("username", username);
               ("password", password); ("timeout_multiplier", timeout)] in
            match initialize_api m settings with
            | Failed f =>
                (Failed f, t ++ a1 ++ a2 ++ a3 ++ a4 ++ a5 ++ a6 ++ [InitializeApi settings])
            | Done _ =>
                match set_section config "Settings" settings with
                | Failed f =>
                    (Failed f,
                     t ++ a1 ++ a2 ++ a3 ++ a4 ++ a5 ++ a6
                       ++ [InitializeApi settings; CreateTemp (temp_name m)])
                | Done written =>
                    (Done (temp_name m),
                     t ++ a1 ++ a2 ++ a3 ++ a4 ++ a5 ++ a6
                       ++ [InitializeApi settings; CreateTemp (temp_name m);
                           WriteTemp (temp_name m) written;
                           AtExitUnlink (temp_name m)])
                end
            end
        end end end end end end
    end.
Proof.
  unfold initialize_irida_api. unfold bind at 1, lift at 1.
  destruct (load_config m config_file) as [config|f]; [|reflexivity].
  cbn zeta.
  repeat (unfold bind at 1; rewrite get_config_value_run;
          match goal with
          | |- context [resolved m config ?k ?e ?p ?h] =>
              destruct (resolved m config k e p h); [|rewrite <- ?app_assoc; reflexivity]
          end).
  unfold bind, emit, lift, ret.
  destruct (initialize_api m _) as [[]|f]; [|rewrite <- !app_assoc; reflexivity].
  destruct (set_section config "Settings" _); rewrite <- !app_assoc; reflexivity.
Qed.

(** X10.  When the configuration file holds the six settings, the client
    is set up with the values of the file, whatever the environment
    holds, and nothing is asked; the value read under [timeout] is passed
    on under [timeout_multiplier].  The temporary file is then created.
    When the parser takes the settings, they are written to the file, its
    removal is registered and its name is the result; when the parser
    refuses them (a value with a stray [%]), the set-up fails with the
    error of the parser, after the client was initialised, and the file
    that was created is neither written nor registered for removal. *)
Theorem file_settings_need_no_prompt (config_file : option string) (config : C)
  (value : string -> string) (t : list (io C)) :
  let settings :=
    [("base_url", value "base_url"); ("client_id", value "client_id");
     ("client_secret", value "client_secret"); ("username", value "username");
     ("password", value "password"); ("timeout_multiplier", value "timeout")] in
  load_config m config_file = Done config ->
  (forall key,
     In key ["base_url"; "client_id"; "client_secret"; "username"; "password"; "timeout"] ->
     in_file config key = true /\ get_option config "Settings" key = Done (value key)) ->
  initialize_api m settings = Done tt ->
  initialize_irida_api m config_file t =
    match set_section config "Settings" settings with
    | Done written =>
        (Done (temp_name m),
         t ++ [InitializeApi settings; CreateTemp (temp_name m);
               WriteTemp (temp_name m) written; AtExitUnlink (temp_name m)])
    | Failed f =>
        (Failed f, t ++ [InitializeApi settings; CreateTemp (temp_name m)])
    end.
Proof.
  intros settings Hload Hfile Hapi. rewrite initialize_run, Hload. cbn zeta.
  unfold resolved, asked.
  repeat match goal with
         | |- context [in_file config ?k] =>
             let H := fresh in
             destruct (Hfile k) as [H ->]; [simpl; tauto|]; rewrite !H; clear H
         end.
  cbn [negb andb app]. fold settings. rewrite Hapi. reflexivity.
Qed.

(** X11.  In a successful set-up the prompts come first and are exactly
    those of the settings found neither in the file nor, set and not
    empty, in the environment, in the order of the six settings and with
    hidden input for the client secret and the password; the client is
    set up, the temporary file is created, the settings as the parser
    took them are written to it and its removal is registered, in this
    order. *)
Theorem prompts_follow_missing_settings (config_file : option string) (config : C)
  (temp : string) (t : list (io C)) :
  load_config m config_file = Done config ->
  fst (initialize_irida_api m config_file t) = Done temp ->
  exists settings written,
    set_section config "Settings" settings = Done written
    /\ snd (initialize_irida_api m config_file t) =
      t ++ map prompt_of (filter (missing m config) setting_specs)
        ++ [InitializeApi settings;
            CreateTemp temp;
            WriteTemp temp written;
            AtExitUnlink temp]
    /\ map fst settings =
         ["base_url"; "client_id"; "client_secret"; "username"; "password";
          "timeout_multiplier"]
    /\ temp = temp_name m.
Proof.
  intros Hload. rewrite initialize_run, Hload. cbn zeta.
  repeat match goal with
         | |- context [resolved m config ?k ?e ?p ?h] =>
             destruct (resolved m config k e p h); [|discriminate]
         end.
  destruct (initialize_api m _) as [[]|f]; [|discriminate].
  destruct (set_section config "Settings" _) as [written|f] eqn:Eset; [|discriminate].
  cbn [fst snd]. intros H. injection H as <-.
  eexists. exists written. split; [exact Eset|].
  split;
    [unfold setting_specs, asked; cbn [filter missing];
     repeat match goal with
            | |- context [negb (in_file config ?k) && negb (in_environment m ?e)] =>
                destruct (negb (in_file config k) && negb (in_environment m e))
            end; reflexivity
    |split; reflexivity].
Qed.

(** Whatever its outcome, the set-up adds events of its own kind only. *)
Lemma set_up_events (config_file : option string) (t : list (io C)) :
  exists new,
    snd (initialize_irida_api m config_file t) = t ++ new
    /\ forallb is_setup_event new = true.
Proof.
  rewrite initialize_run.
  destruct (load_config m config_file) as [config|f0].
  2:{ exists []. rewrite app_nil_r. split; reflexivity. }
  cbn zeta.
  repeat match goal with
         | |- context [resolved m config ?k ?e ?p ?h] =>
             destruct (resolved m config k e p h);
             [|eexists; split;
               [reflexivity|rewrite ?forallb_app, ?asked_setup; reflexivity]]
         end.
  destruct (initialize_api m _) as [[]|f];
    [destruct (set_section config "Settings" _)|];
    (eexists; split; [reflexivity|rewrite ?forallb_app, ?asked_setup; reflexivity]).
Qed.

(** X12.  The set-up only asks, initialises the client, creates and
    writes the temporary file and registers its removal.  The temporary
    file is written only by a set-up that succeeds: when the client
    cannot be initialised, no temporary file is written and none is
    registered. *)
Theorem temp_file_only_after_success (config_file : option string)
  (t : list (io C)) :
  let run := initialize_irida_api m config_file t in
  exists new,
    snd run = t ++ new
    /\ forallb is_setup_event new = true
    /\ (existsb is_temp_event new = true -> fst run = Done (temp_name m))
    /\ (forall f, (forall settings, initialize_api m settings = Failed f) ->
          existsb is_temp_event new = false /\ forall temp, fst run <> Done temp).
Proof.
  cbn zeta. rewrite initialize_run.
  destruct (load_config m config_file) as [config|f0].
  2:{ exists []. rewrite app_nil_r. conj; try reflexivity; try discriminate.
      intros f _. split; [reflexivity|discriminate]. }
  cbn zeta.
  repeat match goal with
         | |- context [resolved m config ?k ?e ?p ?h] =>
             destruct (resolved m config k e p h);
             [|eexists; conj;
               [reflexivity
               |rewrite ?forallb_app, ?asked_setup; reflexivity
               |rewrite ?existsb_app, ?asked_no_temp; discriminate
               |intros f' _; split;
                [rewrite ?existsb_app, ?asked_no_temp; reflexivity|discriminate]]]
         end.
  destruct (initialize_api m _) as [[]|f] eqn:E.
  - destruct (set_section config "Settings" _) as [written|f0].
    + eexists. conj.
      * reflexivity.
      * rewrite ?forallb_app, ?asked_setup. reflexivity.
      * reflexivity.
      * intros f H. rewrite H in E. discriminate.
    + eexists. conj.
      * reflexivity.
      * rewrite ?forallb_app, ?asked_setup. reflexivity.
      * rewrite ?existsb_app, ?asked_no_temp. discriminate.
      * intros f H. rewrite H in E. discriminate.
  - eexists. conj.
    + reflexivity.
    + rewrite ?forallb_app, ?asked_setup. reflexivity.
    + rewrite ?existsb_app, ?asked_no_temp. discriminate.
    + intros f' _. split; [|discriminate].
      rewrite ?existsb_app, ?asked_no_temp. reflexivity.
Qed.

(** [upload], step by step. *)
Lemma upload_run (directory : string) (force_upload : bool) (upload_mode : string)
  (continue_upload : bool) (config : option string) (t : list (io C)) :
  upload m directory force_upload upload_mode continue_upload config t =
    let sample_list := path_join directory "SampleList.csv" in
    let start := UploadRun directory force_upload upload_mode continue_upload in
    if negb (path_exists m sample_list) then
      (Failed (AssertionError ("ERROR! SampleList.csv not found in " ++ directory)), t)
    else if negb (access_w m sample_list) then
      (Failed (AssertionError
                 ("ERROR! Specified directory is not writable: " ++ directory)), t)
    else
      match initialize_irida_api m config
              (t ++ [LogInfo ("Current directory: " ++ directory)]) with
      | (Failed f, t1) => (Failed f, t1)
      | (Done temp, t1) =>
          match config_setup m temp with
          | Failed f => (Failed f, t1 ++ [SetConfigFile temp])
          | Done _ =>
              match upload_run_single_entry m directory force_upload upload_mode
                      continue_upload with
              | Failed f => (Failed f, t1 ++ [SetConfigFile temp; start])
              | Done _ => (Done tt, t1 ++ [SetConfigFile temp; start])
              end
          end
      end.
Proof.
  cbn zeta. unfold upload.
  destruct (negb (path_exists m _)); [reflexivity|].
  destruct (negb (access_w m _)); [reflexivity|].
  unfold _upload, bind, emit, lift, ret.
  destruct (initialize_irida_api m config _) as [[temp|f] t1]; [|reflexivity].
  destruct (config_setup m temp) as [[]|f]; [|reflexivity].
  destruct (upload_run_single_entry m directory force_upload upload_mode
              continue_upload); rewrite <- app_assoc; reflexivity.
Qed.

Lemma initialize_result (config : option string) (t : list (io C)) (temp : string) :
  fst (initialize_irida_api m config t) = Done temp -> temp = temp_name m.
Proof.
  rewrite initialize_run. destruct (load_config m config); [|discriminate].
  cbn zeta.
  repeat match goal with
         | |- context [resolved m ?c ?k ?e ?p ?h] =>
             destruct (resolved m c k e p h); [|discriminate]
         end.
  destruct (initialize_api m _) as [[]|]; [|discriminate].
  destruct (set_section _ "Settings" _); [|discriminate].
  cbn [fst]. congruence.
Qed.

(** X13.  [upload] without [SampleList.csv] in the folder fails with the
    assertion that the file was not found, and with a manifest that
    cannot be written it fails with the assertion about the folder; in
    both cases nothing else has happened.  Otherwise it goes on. *)
Theorem upload_checks_the_manifest_first (directory : string) (force_upload : bool)
  (upload_mode : string) (continue_upload : bool) (config : option string)
  (t : list (io C)) :
  let sample_list := path_join directory "SampleList.csv" in
  let run := upload m directory force_upload upload_mode continue_upload config t in
  (path_exists m sample_list = false ->
   run = (Failed (AssertionError ("ERROR! SampleList.csv not found in " ++ directory)), t))
  /\ (path_exists m sample_list = true -> access_w m sample_list = false ->
      run = (Failed (AssertionError
                       ("ERROR! Specified directory is not writable: " ++ directory)), t))
  /\ (path_exists m sample_list = true -> access_w m sample_list = true ->
      exists rest, snd run = t ++ LogInfo ("Current directory: " ++ directory) :: rest).
Proof.
  cbn zeta. rewrite upload_run. cbn zeta. conj.
  - intros ->. reflexivity.
  - intros -> ->. reflexivity.
  - intros -> ->. cbn [negb].
    destruct (set_up_events config
                (t ++ [LogInfo ("Current directory: " ++ directory)]))
      as (new & Hnew & _).
    destruct (initialize_irida_api m config _) as [[temp|f] t1]; cbn [snd] in Hnew;
      subst t1.
    + destruct (config_setup m temp) as [[]|f].
      * destruct (upload_run_single_entry m directory force_upload upload_mode
                    continue_upload);
          eexists; cbn [snd]; rewrite <- !app_assoc; reflexivity.
      * eexists; cbn [snd]; rewrite <- !app_assoc; reflexivity.
    + eexists; cbn [snd]; rewrite <- !app_assoc; reflexivity.
Qed.

(** X14.  The upload is started exactly when the manifest exists and can
    be written, the set-up succeeds and the configuration is accepted; it
    is then the last event, started once, after the temporary file has
    been made the configuration.  [upload] succeeds exactly when the
    upload was started and returned an exit code, whatever the code. *)
Theorem upload_discards_the_exit_code (directory : string) (force_upload : bool)
  (upload_mode : string) (continue_upload : bool) (config : option string)
  (t : list (io C)) :
  let sample_list := path_join directory "SampleList.csv" in
  let run := upload m directory force_upload upload_mode continue_upload config t in
  let start := UploadRun directory force_upload upload_mode continue_upload in
  exists new,
    snd run = t ++ new
    /\ (In start new <->
        path_exists m sample_list = true /\ access_w m sample_list = true
        /\ fst (initialize_irida_api m config
                  (t ++ [LogInfo ("Current directory: " ++ directory)]))
           = Done (temp_name m)
        /\ config_setup m (temp_name m) = Done tt)
    /\ (fst run = Done tt <->
        In start new
        /\ exists exit_code,
             upload_run_single_entry m directory force_upload upload_mode
               continue_upload = Done exit_code)
    /\ (In start new ->
        exists before, new = before ++ [start]
                       /\ In (SetConfigFile (temp_name m)) before
                       /\ ~ In start before).
Proof.
  cbn zeta. rewrite upload_run. cbn zeta.
  set (start := UploadRun directory force_upload upload_mode continue_upload).
  set (log := LogInfo ("Current directory: " ++ directory) : io C).
  destruct (path_exists m (path_join directory "SampleList.csv")).
  2:{ exists []. rewrite app_nil_r. cbn. conj; try reflexivity.
      - split; [intros []|intros (H & _); discriminate].
      - split; [discriminate|intros ([] & _)].
      - intros []. }
  destruct (access_w m (path_join directory "SampleList.csv")).
  2:{ exists []. rewrite app_nil_r. cbn. conj; try reflexivity.
      - split; [intros []|intros (_ & H & _); discriminate].
      - split; [discriminate|intros ([] & _)].
      - intros []. }
  cbn [negb].
  destruct (set_up_events config (t ++ [log])) as (new & Hnew & Hset).
  assert (Hno : forall l, (forall e, In e l -> is_upload_run e = false) ->
                          ~ In start (log :: new ++ l)).
  { intros l Hl [H|H]; [discriminate|]. apply in_app_or in H. destruct H as [H|H].
    - rewrite forallb_forall in Hset. specialize (Hset _ H). discriminate.
    - specialize (Hl _ H). discriminate. }
  pose proof (initialize_result config (t ++ [log])) as Hres.
  destruct (initialize_irida_api m config (t ++ [log])) as [[temp|f] t1];
    cbn [fst snd] in *; subst t1.
  2:{ exists (log :: new ++ []). rewrite app_nil_r at 1. rewrite <- app_assoc.
      assert (N : ~ In start (log :: new ++ [])) by (apply Hno; intros e []).
      conj; try reflexivity.
      - split; [intros H; destruct (N H)|intros (_ & _ & H & _); discriminate].
      - split; [discriminate|intros (H & _); destruct (N H)].
      - intros H; destruct (N H). }
  rewrite (Hres temp eq_refl). clear Hres temp.
  assert (N1 : ~ In start (log :: new ++ [SetConfigFile (temp_name m)])).
  { apply Hno. intros e [<-|[]]. reflexivity. }
  destruct (config_setup m (temp_name m)) as [[]|f].
  2:{ exists (log :: new ++ [SetConfigFile (temp_name m)]).
      rewrite <- !app_assoc. conj; try reflexivity.
      - split; [intros H; destruct (N1 H)|intros (_ & _ & _ & H); discriminate].
      - split; [discriminate|intros (H & _); destruct (N1 H)].
      - intros H; destruct (N1 H). }
  assert (Hin : In start (log :: new ++ [SetConfigFile (temp_name m); start])).
  { right. apply in_or_app. right. right. left. reflexivity. }
  assert (Hbefore : exists before,
             log :: new ++ [SetConfigFile (temp_name m); start] = before ++ [start]
             /\ In (SetConfigFile (temp_name m)) before /\ ~ In start before).
  { exists (log :: new ++ [SetConfigFile (temp_name m)]). conj.
    - cbn [app]. rewrite <- app_assoc. reflexivity.
    - right. apply in_or_app. right. left. reflexivity.
    - exact N1. }
  destruct (upload_run_single_entry m directory force_upload upload_mode
              continue_upload) as [code|f] eqn:Eup;
    exists (log :: new ++ [SetConfigFile (temp_name m); start]);
    cbn [fst snd]; rewrite <- !app_assoc; (conj; try reflexivity).
  - split; [intros _; conj; reflexivity|intros _; exact Hin].
  - split; [intros _; split; [exact Hin|exists code; reflexivity]|reflexivity].
  - intros _. exact Hbefore.
  - split; [intros _; conj; reflexivity|intros _; exact Hin].
  - split; [discriminate|intros (_ & code & H); discriminate].
  - intros _. exact Hbefore.
Qed.

End CliFacts.

(* ================================================================== *)
(** ** Further statements at concrete inputs *)

Lemma unsortable_name_stops_before_writing_witness :
  prepare (api := Demo.api) Cases.unnumbered_host Demo.run_folder "*_R1_001.fastq.gz"
    (Some "7") None true true Demo.config (Demo.start []) =
    (Raise (IntValueError "ctrl"), Demo.start []).
Proof.
  refine (proj1 (unsortable_name_stops_before_writing (api := Demo.api)
                   Cases.unnumbered_host Demo.run_folder "*_R1_001.fastq.gz"
                   (Some "7") None true Demo.config (Demo.start []) "7"
                   (Demo.start []) ["S_1_S1_R1_001.fastq.gz"]
                   "ctrl_S2_R1_001.fastq.gz" ["S_3_S3_R1_001.fastq.gz"]
                   eq_refl eq_refl _ eq_refl)).
  constructor; [discriminate|constructor].
Defined.

Lemma paired_end_manifest_witness :
  prepare (api := Demo.api) Demo.numbered_host Demo.run_folder "*_R1_001.fastq.gz"
    (Some "7") None true false Demo.config (Demo.start []) =
    (Ok tt,
     World []
       (Some (manifest_text
                [pe_record "7" "A_10_S1_R1_001.fastq.gz" "A_10_S1_R2_001.fastq.gz";
                 pe_record "7" "A_2_S2_R1_001.fastq.gz" "A_2_S2_R2_001.fastq.gz"]))
       (header_events
          ++ write_events
               [pe_record "7" "A_10_S1_R1_001.fastq.gz" "A_10_S1_R2_001.fastq.gz";
                pe_record "7" "A_2_S2_R1_001.fastq.gz" "A_2_S2_R2_001.fastq.gz"])).
Proof.
  exact (proj1 (paired_end_manifest (api := Demo.api) Demo.numbered_host
                  Demo.run_folder "*_R1_001.fastq.gz" (Some "7") None false
                  Demo.config (Demo.start []) "7" (Demo.start [])
                  Demo.numbered_names Demo.numbered_names
                  eq_refl eq_refl eq_refl eq_refl eq_refl)).
Defined.

Lemma default_pattern_names_pair_witness :
  fst (prepare (api := Demo.api) Demo.numbered_host Demo.run_folder
         "*_R1_001.fastq.gz" (Some "7") None true true Demo.config (Demo.start []))
  = Ok tt.
Proof.
  refine (proj2 (default_pattern_names_pair (api := Demo.api) Demo.numbered_host
                   Demo.run_folder "*_R1_001.fastq.gz" (Some "7") None true
                   Demo.config (Demo.start []) "7" (Demo.start [])
                   Demo.numbered_names
                   ["A_2_S2_R1_001.fastq.gz"; "A_10_S1_R1_001.fastq.gz"]
                   eq_refl eq_refl _ eq_refl eq_refl)).
  constructor; [exists "A_10_S1"; reflexivity|].
  constructor; [exists "A_2_S2"; reflexivity|constructor].
Defined.

Lemma empty_scan_writes_the_headers_witness :
  build_manifest Cases.empty_host Demo.run_folder "*_R1_001.fastq.gz" true true "7"
    (Demo.start []) =
    (Ok tt, World [] (Some (data_line ++ header_line)%string) header_events).
Proof.
  exact (empty_scan_writes_the_headers Cases.empty_host Demo.run_folder
           "*_R1_001.fastq.gz" true true "7" (Demo.start []) eq_refl eq_refl).
Defined.

Lemma equal_keys_keep_scan_order_witness :
  sorted_names regex_pe Cases.tied_names =
    Ok ["C_2_S3_R1_001.fastq.gz"; "B_5_S1_R1_001.fastq.gz"; "A_5_S2_R1_001.fastq.gz"]
  /\ with_key regex_pe 5
       ["C_2_S3_R1_001.fastq.gz"; "B_5_S1_R1_001.fastq.gz"; "A_5_S2_R1_001.fastq.gz"]
     = ["B_5_S1_R1_001.fastq.gz"; "A_5_S2_R1_001.fastq.gz"].
Proof.
  split; [reflexivity|].
  exact (equal_keys_keep_scan_order regex_pe Cases.tied_names
           ["C_2_S3_R1_001.fastq.gz"; "B_5_S1_R1_001.fastq.gz";
            "A_5_S2_R1_001.fastq.gz"] eq_refl 5%Z).
Defined.

Lemma file_settings_need_no_prompt_witness :
  Cli.initialize_irida_api (parser := Cli.Example.parser) (Cli.Example.machine Cli.Example.full_file 0)
    (Some "config.conf") [] =
    (Cli.Done "/tmp/tmpabc.conf",
     [Cli.InitializeApi
        [("base_url", "https://irida.example/api"); ("client_id", "uploader");
         ("client_secret", "s3cret"); ("username", "bot"); ("password", "pw");
         ("timeout_multiplier", "10")];
      Cli.CreateTemp "/tmp/tmpabc.conf";
      Cli.WriteTemp "/tmp/tmpabc.conf"
        (("Settings",
          [("base_url", "https://irida.example/api"); ("client_id", "uploader");
           ("client_secret", "s3cret"); ("username", "bot"); ("password", "pw");
           ("timeout_multiplier", "10")]) :: Cli.Example.full_file);
      Cli.AtExitUnlink "/tmp/tmpabc.conf"]).
Proof.
  refine (file_settings_need_no_prompt (parser := Cli.Example.parser)
            (Cli.Example.machine Cli.Example.full_file 0) (Some "config.conf")
            Cli.Example.full_file Cases.file_value [] eq_refl _ eq_refl).
  intros key [<-|[<-|[<-|[<-|[<-|[<-|[]]]]]]]; split; reflexivity.
Defined.

(** A password with a single [%] in the file: the client is initialised
    and the temporary file created, then the set-up fails; the file is
    not registered for removal. *)
Lemma stray_percent_stops_the_set_up :
  Cli.initialize_irida_api (parser := Cli.Example.parser)
    (Cli.Example.machine Cli.Example.percent_file 0) (Some "config.conf") [] =
    (Cli.Failed (Cli.LibraryError "ValueError"),
     [Cli.InitializeApi
        [("base_url", "https://irida.example/api"); ("client_id", "uploader");
         ("client_secret", "s3cret"); ("username", "bot"); ("password", "p%w");
         ("timeout_multiplier", "10")];
      Cli.CreateTemp "/tmp/tmpabc.conf"]).
Proof. reflexivity. Qed.

Lemma prompts_follow_missing_settings_witness :
  exists settings written,
    @Cli.set_section _ Cli.Example.parser Cli.Example.partial_file "Settings" settings
      = Cli.Done written
    /\ snd (Cli.initialize_irida_api (parser := Cli.Example.parser) (Cli.Example.machine Cli.Example.partial_file 0)
           (Some "config.conf") []) =
      [Cli.Prompt "Enter IRIDA password" true;
       Cli.InitializeApi settings;
       Cli.CreateTemp "/tmp/tmpabc.conf";
       Cli.WriteTemp "/tmp/tmpabc.conf" written;
       Cli.AtExitUnlink "/tmp/tmpabc.conf"].
Proof.
  destruct (prompts_follow_missing_settings (parser := Cli.Example.parser)
              (Cli.Example.machine Cli.Example.partial_file 0) (Some "config.conf")
              Cli.Example.partial_file "/tmp/tmpabc.conf" [] eq_refl eq_refl)
    as (settings & written & Eset & E & _).
  exists settings, written. split; [exact Eset|exact E].
Defined.
